(** * Fund data verification: a shallow embedding of [FundDataVerifier]

    The Python class of [application/main.py] reads a table of funds, asks
    two HTTP services about every row and writes four derived columns.  The
    embedding keeps the shape of the code: Python values are a small
    inductive type, exceptions are an explicit [result], the network is a
    log of requests answered by an oracle, and the data frame is a list of
    rows that [process_data] updates in place by row index. *)

From stdpp Require Import gmap strings list.
From Stdlib Require Import ZArith String Ascii DecimalString.

Local Open Scope string_scope.
Local Open Scope Z_scope.

(** ** Python values *)

(** The values that reach the code: spreadsheet cells ([None], the float
    [nan] pandas uses for an empty cell, booleans, integers, strings) and
    decoded JSON (the same scalars, arrays and objects).  Floats other than
    [nan] are not modelled.  A [str] is a string of bytes. *)
#[local] Set Warnings "-register-all".
Inductive value : Type :=
  | VNone
  | VNaN
  | VBool (b : bool)
  | VInt (n : Z)
  | VStr (s : string)
  | VList (l : list value)
  | VDict (d : list (string * value)).

(** Exceptions are told apart by their class only. *)
Inductive exn : Type :=
  | ValueError
  | TypeError
  | AttributeError
  | KeyError
  | IndexError
  | RequestException
  | JSONDecodeError.

Inductive result (A : Type) : Type :=
  | Ok (a : A)
  | Raise (e : exn).
Arguments Ok {A} a.
Arguments Raise {A} e.

Definition rbind {A B} (r : result A) (k : A → result B) : result B :=
  match r with
  | Ok a => k a
  | Raise e => Raise e
  end.

(** [bool(v)]. *)
Definition truthy (v : value) : bool :=
  match v with
  | VNone => false
  | VNaN => true
  | VBool b => b
  | VInt n => negb (n =? 0)
  | VStr s => negb (String.eqb s "")
  | VList l => negb (Nat.eqb (List.length l) 0)
  | VDict d => negb (Nat.eqb (List.length d) 0)
  end.

(** [v if v else ""]. *)
Definition or_empty (v : value) : value :=
  if truthy v then v else VStr "".

(** [v == s] for a [str] [s]: only an equal [str] compares equal. *)
Definition eq_str (v : value) (s : string) : bool :=
  match v with
  | VStr t => String.eqb t s
  | _ => false
  end.

(** [len(v)]. *)
Definition py_len (v : value) : result nat :=
  match v with
  | VStr s => Ok (String.length s)
  | VList l => Ok (List.length l)
  | VDict d => Ok (List.length d)
  | _ => Raise TypeError
  end.

(** [v[0]]; the keys of a decoded JSON object are strings, so the integer
    key is never found. *)
Definition index0 (v : value) : result value :=
  match v with
  | VList (x :: _) => Ok x
  | VList [] => Raise IndexError
  | VStr (String c _) => Ok (VStr (String c EmptyString))
  | VStr EmptyString => Raise IndexError
  | VDict _ => Raise KeyError
  | _ => Raise TypeError
  end.

Fixpoint assoc (k : string) (d : list (string * value)) : option value :=
  match d with
  | [] => None
  | (k', v) :: d' => if String.eqb k' k then Some v else assoc k d'
  end.

(** [v.get(k, dflt)]; only a [dict] has the method. *)
Definition dict_get (v : value) (k : string) (dflt : value) : result value :=
  match v with
  | VDict d => Ok (default dflt (assoc k d))
  | _ => Raise AttributeError
  end.

(** ** Strings *)

(** [re.sub(cls, repl, s)] for a pattern that is one character class: every
    character of the class is replaced by [repl], scanning left to right. *)
Fixpoint re_sub (cls : ascii → bool) (repl : string) (s : string) : string :=
  match s with
  | EmptyString => EmptyString
  | String c s' =>
      if cls c then repl +:+ re_sub cls repl s'
      else String c (re_sub cls repl s')
  end.

(** The class [[./-]]. *)
Definition cnpj_punct (c : ascii) : bool :=
  Ascii.eqb c "." || Ascii.eqb c "/" || Ascii.eqb c "-".

(** [sep in s] for a one-character [sep]. *)
Fixpoint str_contains (sep : ascii) (s : string) : bool :=
  match s with
  | EmptyString => false
  | String c s' => Ascii.eqb c sep || str_contains sep s'
  end.

(** [s.split(sep)] for a one-character [sep]. *)
Fixpoint str_split (sep : ascii) (s : string) : list string :=
  match s with
  | EmptyString => [EmptyString]
  | String c s' =>
      if Ascii.eqb c sep then EmptyString :: str_split sep s'
      else match str_split sep s' with
           | [] => [String c EmptyString]
           | p :: ps => String c p :: ps
           end
  end.

Definition str_of_Z (n : Z) : string := NilZero.string_of_int (Z.to_int n).

(** ** The environment *)

Inductive api : Type := FUNDSNET_API | MZIQ_API.

Record request : Type := {
  url : api;
  params : list (string * value)
}.

(** What [requests.get] gives back: [status_code] and the outcome of
    [response.json()], [None] when the body does not parse. *)
Record response : Type := {
  status_code : Z;
  json : option value
}.

(** The log of the requests issued so far. *)
Abbreviation world := (list request).

(** A table is a list of rows, a row maps column names to cells. *)
Abbreviation row := (gmap string value).

(** The object: the network log and [self.data]. *)
Record state : Type := {
  calls : world;
  data : option (list row)
}.

(** Computations on a state [S] that may raise; the state reached when the
    exception is raised is kept. *)
Definition M (S A : Type) : Type := S → S * result A.

Definition ret {S A} (a : A) : M S A := λ s, (s, Ok a).

Definition bind {S A B} (c : M S A) (k : A → M S B) : M S B :=
  λ s, match c s with
       | (s', Ok a) => k a s'
       | (s', Raise e) => (s', Raise e)
       end.

Definition lift {S A} (r : result A) : M S A := λ s, (s, r).

(** [try: c except Exception: h]. *)
Definition try_except {S A} (c : M S A) (h : exn → M S A) : M S A :=
  λ s, match c s with
       | (s', Ok a) => (s', Ok a)
       | (s', Raise e) => h e s'
       end.

Declare Scope py_scope.
Delimit Scope py_scope with py.
Notation "x <- c ;; k" := (bind c (λ x, k))
  (at level 100, c at next level, right associativity) : py_scope.
Notation "c ;;; k" := (bind c (λ _, k))
  (at level 100, right associativity) : py_scope.
Notation "x <~ r ;; k" := (rbind r (λ x, k))
  (at level 100, r at next level, right associativity) : py_scope.
Local Open Scope py_scope.

(** A client call runs on the network log and leaves [self.data] alone. *)
Definition on_net {A} (c : M world A) : M state A :=
  λ s, let '(w, r) := c (calls s) in ({| calls := w; data := data s |}, r).

Section Verifier.

(** The truth value of [pd.isna(l)] for a list [l]: pandas answers with an
    array, and numpy raises when an array of several elements is used as a
    condition. *)
Variable isna_list : list value → result bool.

(** [str(v)] for a list or a dict. *)
Variable repr : value → string.

(** The network: the answer to a request, given the requests made before
    it; [None] when [requests.get] raises (no connection, timeout). *)
Variable net : world → request → option response.

(** [pd.isna(v)] used as a condition. *)
Definition isna (v : value) : result bool :=
  match v with
  | VNone | VNaN => Ok true
  | VList l => isna_list l
  | _ => Ok false
  end.

(** [not v or pd.isna(v)]. *)
Definition absent (v : value) : result bool :=
  if negb (truthy v) then Ok true else isna v.

(** [str(v)]. *)
Definition py_str (v : value) : string :=
  match v with
  | VNone => "None"
  | VNaN => "nan"
  | VBool true => "True"
  | VBool false => "False"
  | VInt n => str_of_Z n
  | VStr s => s
  | _ => repr v
  end.

(** [requests.get(url, params=..., timeout=10)]. *)
Definition requests_get (rq : request) : M world response :=
  λ w, ((w ++ [rq])%list,
        match net w rq with
        | Some r => Ok r
        | None => Raise RequestException
        end).

(** [response.json()]. *)
Definition response_json (r : response) : result value :=
  match json r with
  | Some v => Ok v
  | None => Raise JSONDecodeError
  end.

Definition normalize_cnpj (cnpj : value) : result string :=
  b <~ absent cnpj ;;
  if b then Ok ""
  else Ok (re_sub cnpj_punct "" (py_str cnpj)).

Definition fundsnet_query (cnpj : value) : list (string * value) :=
  [("cnpj", cnpj); ("cnpjFundo", cnpj); ("idCategoria", VInt 0);
   ("idTipoDocumento", VInt 0); ("d", VInt 2); ("s", VInt 0);
   ("l", VInt 10); ("o[0][dataEntrega]", VStr "desc");
   ("idEspecieDocumento", VInt 0)].

Definition fundsnet_request (cnpj : value) : request :=
  {| url := FUNDSNET_API; params := fundsnet_query cnpj |}.

(** The tuple [None, None, None]. *)
Definition no_result : list value := [VNone; VNone; VNone].

(** Returns a tuple, as the list of its components. *)
Definition query_fundsnet (cnpj : value) : M world (list value) :=
  b <- lift (absent cnpj) ;;
  if b then ret no_result
  else
    try_except
      (response <- requests_get (fundsnet_request cnpj) ;;
       if status_code response =? 200 then
         body <- lift (response_json response) ;;
         data <- lift (dict_get body "data" (VList [])) ;;
         nonempty <- lift (if truthy data
                           then n <~ py_len data ;; Ok (0 <? n)%nat
                           else Ok false) ;;
         if nonempty then
           fund_info <- lift (index0 data) ;;
           name <- lift (dict_get fund_info "descricaoFundo" VNone) ;;
           date <- lift (dict_get fund_info "dataEntrega" VNone) ;;
           id <- lift (dict_get fund_info "id" VNone) ;;
           ret [name; date; id]
         else ret no_result
       else ret no_result)
      (λ _, ret [VNone; VNone]).

Definition query_mziq (fund_name : value) : M world value :=
  b <- lift (absent fund_name) ;;
  if b then ret VNone
  else
    try_except
      (response <- requests_get {| url := MZIQ_API;
                                   params := [("fundName", fund_name)] |} ;;
       if status_code response =? 200 then
         data <- lift (response_json response) ;;
         lift (dict_get data "id" VNone)
       else ret VNone)
      (λ _, ret VNone).

(** ["T" in v]. *)
Definition contains_T (v : value) : result bool :=
  match v with
  | VStr s => Ok (str_contains "T" s)
  | VList l => Ok (existsb (λ x, eq_str x "T") l)
  | VDict d => Ok (bool_decide (is_Some (assoc "T" d)))
  | _ => Raise TypeError
  end.

(** [v.split("T")[0]]. *)
Definition split_T_first (v : value) : result value :=
  match v with
  | VStr s => Ok (VStr (default EmptyString (head (str_split "T" s))))
  | _ => Raise AttributeError
  end.

Definition format_date (date_str : value) : result value :=
  b <~ absent date_str ;;
  if b then Ok (VStr "")
  else
    match (c <~ contains_T date_str ;;
           if c then split_T_first date_str else Ok date_str) with
    | Ok v => Ok v
    | Raise _ => Ok date_str
    end.

(** ** The data frame *)

(** [self.data[col] = v]: the column is set in every row. *)
Definition set_column (col : string) (v : value) : M state unit :=
  λ s, match data s with
       | Some d => ({| calls := calls s; data := Some (insert col v <$> d) |},
                    Ok tt)
       | None => (s, Raise TypeError)
       end.

(** [self.data.at[idx, col] = v].  [process_data] only passes a label that
    [iterrows] gave it, so [idx] is a row of the frame; for a label that is
    not, pandas would add a row, which the model leaves out. *)
Definition at_set (idx : nat) (col : string) (v : value) : M state unit :=
  λ s, match data s with
       | Some d => ({| calls := calls s;
                       data := Some (alter (insert col v) idx d) |}, Ok tt)
       | None => (s, Raise TypeError)
       end.

(** [self.data.iterrows()]: the rows as they are when the loop starts, each
    with its label. *)
Definition iterrows : M state (list (nat * row)) :=
  λ s, match data s with
       | Some d => (s, Ok (imap (λ idx r, (idx, r)) d))
       | None => (s, Raise AttributeError)
       end.

(** [row.get(col)]. *)
Definition row_get (r : row) (col : string) : value :=
  default VNone (r !! col).

(** [a, b, c = t]. *)
Definition unpack3 (t : list value) : result (value * value * value) :=
  match t with
  | [a; b; c] => Ok (a, b, c)
  | _ => Raise ValueError
  end.

Fixpoint for_each {S A} (l : list A) (body : A → M S unit) : M S unit :=
  match l with
  | [] => ret tt
  | x :: l' => body x ;;; for_each l' body
  end.

(** The four assignments before the loop. *)
Definition add_columns : M state unit :=
  set_column "validado" (VBool false) ;;;
  set_column "dataUltimoArquivamento" (VStr "") ;;;
  set_column "externalId" (VStr "") ;;;
  set_column "idRedis" (VStr "").

(** The body of the [try] of one loop iteration. *)
Definition row_body (idx : nat) (cnpj : value) : M state unit :=
  t <- on_net (query_fundsnet cnpj) ;;
  t3 <- lift (unpack3 t) ;;
  let '(fund_name, last_delivery_date, external_id) := t3 in
  if truthy fund_name then
    fund_id <- on_net (query_mziq fund_name) ;;
    at_set idx "dataUltimoArquivamento" last_delivery_date ;;;
    at_set idx "idRedis" (or_empty fund_id) ;;;
    at_set idx "externalId" (or_empty external_id) ;;;
    normalized_cnpj <- lift (normalize_cnpj cnpj) ;;
    at_set idx "validado"
           (if truthy fund_id then VBool (eq_str fund_id normalized_cnpj)
            else VBool false)
  else ret tt.

(** One loop iteration. *)
Definition process_row (ir : nat * row) : M state unit :=
  let cnpj := row_get ir.2 "CNPJ" in
  try_except (row_body ir.1 cnpj) (λ _, ret tt).

Definition process_data : M state bool :=
  λ s, match data s with
       | None => (s, Ok false)
       | Some _ =>
           (add_columns ;;;
            rows <- iterrows ;;
            for_each rows process_row ;;;
            ret true) s
       end.

(** The object when the loop of [process_data] reaches row [i]. *)
Definition state_at (s : state) (i : nat) : state :=
  ((add_columns ;;;
    rows <- iterrows ;;
    for_each (take i rows) process_row) s).1.

End Verifier.

(** ** Notions used in the statements *)

(** The cell of row [i] and column [col]. *)
Definition cell (t : list row) (i : nat) (col : string) : option value :=
  r ← t !! i; r !! col.

(** The columns [process_data] writes. *)
Definition derived_columns : list string :=
  ["validado"; "dataUltimoArquivamento"; "externalId"; "idRedis"].

(** The characters of a formatted taxpayer ID. *)
Definition is_digit (c : ascii) : bool :=
  (48 <=? nat_of_ascii c)%nat && (nat_of_ascii c <=? 57)%nat.

Definition cnpj_char (c : ascii) : bool := is_digit c || cnpj_punct c.

(** The digits of a string, in their order. *)
Definition digits_of (s : string) : string :=
  string_of_list_ascii (List.filter is_digit (list_ascii_of_string s)).

(** A row without the four derived columns. *)
Definition without_derived (r : row) : row :=
  delete "idRedis"
    (delete "externalId"
       (delete "dataUltimoArquivamento" (delete "validado" r))).

(** Whether the answer of the primary client unpacks into three values the
    first of which, the fund name, is truthy. *)
Definition names_fund (res : result (list value)) : bool :=
  match res with
  | Ok [name; _; _] => truthy name
  | _ => false
  end.

(** A row once the four columns have been added. *)
Definition with_defaults (r : row) : row :=
  <["idRedis" := VStr ""]>
    (<["externalId" := VStr ""]>
       (<["dataUltimoArquivamento" := VStr ""]>
          (<["validado" := VBool false]> r))).

(** A row once the four cells have been written, from the delivery date,
    the identifier of the second service, the document identifier and the
    normalized taxpayer ID. *)
Definition reconciled (date fund_id external_id : value) (normalized : string)
    (r : row) : row :=
  <["validado" := if truthy fund_id then VBool (eq_str fund_id normalized)
                  else VBool false]>
    (<["externalId" := or_empty external_id]>
       (<["idRedis" := or_empty fund_id]>
          (<["dataUltimoArquivamento" := date]> r))).

(** The request of [query_mziq]. *)
Definition mziq_request (fund_name : value) : request :=
  {| url := MZIQ_API; params := [("fundName", fund_name)] |}.

(** ** The files and the whole run *)

(** The verifier together with the output file: [None] as long as nothing
    has been written to [OUTPUT_PATH]. *)
Record machine : Type := {
  self : state;
  file : option (list row)
}.

(** A method that only touches the object. *)
Definition on_self {A} (c : M state A) : M machine A :=
  λ m, let '(s, r) := c (self m) in ({| self := s; file := file m |}, r).

Section Pipeline.

Variable isna_list : list value → result bool.
Variable repr : value → string.
Variable net : world → request → option response.

(** [pd.read_excel(INPUT_PATH)]: the table of the input file, [None] when
    the call raises (no file, not a spreadsheet). *)
Variable read_excel : option (list row).

(** Whether [os.makedirs] and [self.data.to_excel(OUTPUT_PATH)] go through
    for a table; they raise on a path that cannot be written and on a cell
    the writer cannot store. *)
Variable to_excel : list row → bool.

Definition read_input_file : M machine bool :=
  λ m, match read_excel with
       | Some t =>
           ({| self := {| calls := calls (self m); data := Some t |};
               file := file m |}, Ok true)
       | None => (m, Ok false)
       end.

Definition save_output_file : M machine bool :=
  λ m, match data (self m) with
       | None => (m, Ok false)
       | Some d =>
           if to_excel d
           then ({| self := self m; file := Some d |}, Ok true)
           else (m, Ok false)
       end.

Definition run : M machine bool :=
  loaded <- read_input_file ;;
  if negb loaded then ret false
  else
    processed <- on_self (process_data isna_list repr net) ;;
    if negb processed then ret false
    else save_output_file.

(** [main()]: a new verifier, nothing loaded; the value is the exit
    status. *)
Definition main (w : world) (f : option (list row)) : machine * result Z :=
  (success <- run ;;
   ret (if success : bool then 0 else 1))
    {| self := {| calls := w; data := None |}; file := f |}.

End Pipeline.

(** ** The scenario of the specification *)

Module Scenario.

Definition cnpj : value := VStr "12.345.678/0001-99".

Definition fund_row : row := {[ "CNPJ" := cnpj ]}.

Definition input : list row := [fund_row].

Definition start : state := {| calls := []; data := Some input |}.

Definition fund_info : value :=
  VDict [("descricaoFundo", VStr "Fund X");
         ("dataEntrega", VStr "2024-01-15T00:00:00");
         ("id", VStr "D1")].

(** Both services answer; the registry knows one fund. *)
Definition net (w : world) (rq : request) : option response :=
  match url rq with
  | FUNDSNET_API =>
      Some {| status_code := 200;
              json := Some (VDict [("data", VList [fund_info])]) |}
  | MZIQ_API =>
      Some {| status_code := 200;
              json := Some (VDict [("id", VStr "12345678000199")]) |}
  end.

Definition first_call : world := [fundsnet_request cnpj].

Definition both_calls : world :=
  [fundsnet_request cnpj;
   {| url := MZIQ_API; params := [("fundName", VStr "Fund X")] |}].

(** No connection. *)
Definition offline (w : world) (rq : request) : option response := None.

(** The registry answers with a body that is not JSON. *)
Definition garbled (w : world) (rq : request) : option response :=
  Some {| status_code := 200; json := None |}.

(** The registry has no document for the fund. *)
Definition unknown (w : world) (rq : request) : option response :=
  Some {| status_code := 200; json := Some (VDict [("data", VList [])]) |}.

(** The registry names the fund without a date or a document identifier,
    and the second service does not know the name. *)
Definition undated (w : world) (rq : request) : option response :=
  match url rq with
  | FUNDSNET_API =>
      Some {| status_code := 200;
              json := Some (VDict [("data",
                       VList [VDict [("descricaoFundo", VStr "Fund X");
                                     ("dataEntrega", VNone)]])]) |}
  | MZIQ_API => Some {| status_code := 404; json := None |}
  end.

(** The first request of the run fails, the later ones are answered. *)
Definition flaky (w : world) (rq : request) : option response :=
  match w with
  | [] => None
  | _ => net w rq
  end.

Definition other_cnpj : value := VStr "00.000.000/0001-91".

Definition other_row : row := {[ "CNPJ" := other_cnpj ]}.

Definition two_rows : list row := [other_row; fund_row].

Definition start_two : state := {| calls := []; data := Some two_rows |}.

(** The object after the iteration of the first of the two rows failed. *)
Definition after_failure : state :=
  {| calls := [fundsnet_request other_cnpj];
     data := Some (with_defaults <$> two_rows) |}.

Definition isna_list (l : list value) : result bool := Raise ValueError.

Definition repr (v : value) : string := "".

End Scenario.

Module S := Scenario.

(** ** Further examples *)

Module Examples.

(** A table without the column [CNPJ], its second row empty. *)
Definition nameless : list row := [ {[ "Fundo" := VStr "Fund X" ]}; ∅ ].

(** A writer that accepts every table. *)
Definition writes (t : list row) : bool := true.

(** The object at the end of the scenario of the specification. *)
Definition validated : state :=
  (process_data S.isna_list S.repr S.net S.start).1.

(** Its table. *)
Definition validated_rows : list row := default [] (data validated).

(** The machine after [main] in the scenario, with nothing written
    before. *)
Definition after_main : machine :=
  (main S.isna_list S.repr S.net (Some S.input) writes [] None).1.

End Examples.

Module E := Examples.

(** ** The monad *)

Lemma bind_ok {S A B} (c : M S A) (k : A → M S B) s s' a :
  c s = (s', Ok a) → bind c k s = k a s'.
Proof. intros H. unfold bind. by rewrite H. Qed.

Lemma bind_raise {S A B} (c : M S A) (k : A → M S B) s s' e :
  c s = (s', Raise e) → bind c k s = (s', Raise e).
Proof. intros H. unfold bind. by rewrite H. Qed.

Lemma for_each_app {S A} (l1 l2 : list A) (body : A → M S unit) s :
  (∀ x s0, ∃ s1, body x s0 = (s1, Ok tt)) →
  for_each (l1 ++ l2) body s = for_each l2 body (for_each l1 body s).1.
Proof.
  intros Hbody. revert s.
  induction l1 as [|x l1 IH]; intros s; simpl; [done|].
  destruct (Hbody x s) as [s1 Hs1].
  rewrite !(bind_ok _ _ _ _ _ Hs1). apply IH.
Qed.

Lemma on_net_run {A} (c : M world A) w w' r d :
  c w = (w', r) →
  on_net c {| calls := w; data := d |} = ({| calls := w'; data := d |}, r).
Proof. intros H. unfold on_net. simpl. by rewrite H. Qed.

(** Runs the first computation of a [bind] whose outcome is known. *)
Ltac run_ok H :=
  erewrite bind_ok by first [ exact H | apply on_net_run, H | reflexivity ];
  cbv beta iota zeta.
Ltac run_raise H :=
  erewrite bind_raise by first [ exact H | apply on_net_run, H | reflexivity ].

(** ** Strings *)

Lemma re_sub_delete_cons cls c s :
  re_sub cls "" (String c s)
  = if cls c then re_sub cls "" s else String c (re_sub cls "" s).
Proof. reflexivity. Qed.

Lemma re_sub_delete_filter cls s :
  list_ascii_of_string (re_sub cls "" s)
  = List.filter (λ c, negb (cls c)) (list_ascii_of_string s).
Proof.
  induction s as [|c s IH]; [done|].
  rewrite re_sub_delete_cons. simpl.
  destruct (cls c); simpl; by rewrite IH.
Qed.

Lemma re_sub_delete_idem cls s :
  re_sub cls "" (re_sub cls "" s) = re_sub cls "" s.
Proof.
  induction s as [|c s IH]; [done|].
  rewrite re_sub_delete_cons.
  destruct (cls c) eqn:E; [done|]. by rewrite re_sub_delete_cons, E, IH.
Qed.

Lemma digit_not_punct c : is_digit c = true → cnpj_punct c = false.
Proof.
  destruct c as [[] [] [] [] [] [] [] []]; vm_compute; congruence.
Qed.

Lemma filter_cnpj_chars (l : list ascii) :
  forallb cnpj_char l = true →
  List.filter (λ c, negb (cnpj_punct c)) l = List.filter is_digit l.
Proof.
  induction l as [|c l IH]; simpl; [done|].
  intros [Hc Hl]%andb_prop. rewrite (IH Hl). unfold cnpj_char in Hc.
  destruct (is_digit c) eqn:Ed.
  - by rewrite (digit_not_punct _ Ed).
  - simpl in Hc. by rewrite Hc.
Qed.

Section Properties.

Variable isna_list : list value → result bool.
Variable repr : value → string.
Variable net : world → request → option response.

(** ** The identifier normalizer *)

Lemma normalize_cnpj_str s :
  normalize_cnpj isna_list repr (VStr s) = Ok (re_sub cnpj_punct "" s).
Proof.
  unfold normalize_cnpj, absent. simpl.
  destruct s as [|c s]; reflexivity.
Qed.

Lemma normalize_cnpj_present cnpj :
  absent isna_list cnpj = Ok false →
  normalize_cnpj isna_list repr cnpj
  = Ok (re_sub cnpj_punct "" (py_str repr cnpj)).
Proof. intros H. unfold normalize_cnpj. by rewrite H. Qed.

(** C7. The normalizer returns a string for every taxpayer ID made of digits
    and the characters [.], [/], [-]: the digits of the input in their
    order, every one of the three punctuation characters removed.  For an
    absent input ([None], [nan]) and for the empty string it returns the
    empty string. *)
Theorem normalize_cnpj_total :
  (∀ s, forallb cnpj_char (list_ascii_of_string s) = true →
        normalize_cnpj isna_list repr (VStr s) = Ok (digits_of s))
  ∧ normalize_cnpj isna_list repr VNone = Ok ""
  ∧ normalize_cnpj isna_list repr VNaN = Ok ""
  ∧ normalize_cnpj isna_list repr (VStr "") = Ok "".
Proof.
  split; [|done].
  intros s Hs. rewrite normalize_cnpj_str. f_equal. unfold digits_of.
  rewrite <- (filter_cnpj_chars _ Hs), <- re_sub_delete_filter.
  by rewrite string_of_list_ascii_of_string.
Qed.

(** C8. Normalizing the result of the normalizer gives that result again,
    for every input value; where the first call raises, so does the
    composition. *)
Theorem normalize_cnpj_idempotent (v : value) :
  (s <~ normalize_cnpj isna_list repr v ;;
   normalize_cnpj isna_list repr (VStr s))
  = normalize_cnpj isna_list repr v.
Proof.
  unfold normalize_cnpj at 1 3.
  destruct (absent isna_list v) as [[|]|e]; simpl; [done| |done].
  by rewrite normalize_cnpj_str, re_sub_delete_idem.
Qed.

(** ** The primary registry client *)

Lemma query_fundsnet_absent cnpj w :
  absent isna_list cnpj = Ok true →
  query_fundsnet isna_list net cnpj w = (w, Ok no_result).
Proof. intros H. unfold query_fundsnet, bind, lift. by rewrite H. Qed.

Lemma query_fundsnet_failure cnpj w :
  absent isna_list cnpj = Ok false →
  net w (fundsnet_request cnpj) = None →
  query_fundsnet isna_list net cnpj w
  = ((w ++ [fundsnet_request cnpj])%list, Ok [VNone; VNone]).
Proof.
  intros H Hn. unfold query_fundsnet, bind, lift, try_except, requests_get.
  by rewrite H, Hn.
Qed.

Lemma query_fundsnet_status cnpj w r :
  absent isna_list cnpj = Ok false →
  net w (fundsnet_request cnpj) = Some r →
  status_code r ≠ 200 →
  query_fundsnet isna_list net cnpj w
  = ((w ++ [fundsnet_request cnpj])%list, Ok no_result).
Proof.
  intros H Hn Hs. unfold query_fundsnet, bind, lift, try_except, requests_get.
  rewrite H, Hn. by apply Z.eqb_neq in Hs as ->.
Qed.

Lemma query_fundsnet_empty cnpj w r d :
  absent isna_list cnpj = Ok false →
  net w (fundsnet_request cnpj) = Some r →
  json r = Some (VDict d) →
  default (VList []) (assoc "data" d) = VList [] →
  query_fundsnet isna_list net cnpj w
  = ((w ++ [fundsnet_request cnpj])%list, Ok no_result).
Proof.
  intros H Hn Hj Hd.
  unfold query_fundsnet, bind, lift, try_except, requests_get, response_json.
  rewrite H, Hn, Hj.
  destruct (status_code r =? 200); [|done]. simpl. by rewrite Hd.
Qed.

(** When the registry names a fund, the taxpayer ID was present. *)
Lemma query_fundsnet_named cnpj w w1 name date ext :
  query_fundsnet isna_list net cnpj w = (w1, Ok [name; date; ext]) →
  truthy name = true →
  absent isna_list cnpj = Ok false.
Proof.
  unfold query_fundsnet, bind, lift.
  destruct (absent isna_list cnpj) as [[|]|e]; [|done|done].
  unfold ret, no_result. intros [= _ <- _ _] Ht. done.
Qed.

(** ** One loop iteration *)

Lemma at_set_some idx col v w (d : list row) :
  at_set idx col v {| calls := w; data := Some d |}
  = ({| calls := w; data := Some (alter (insert col v) idx d) |}, Ok tt).
Proof. reflexivity. Qed.

(** The iteration of a row whose fund is named and looked up: the four
    cells of the row are written. *)
Lemma row_body_named idx cnpj w d w1 name date ext w2 fid :
  query_fundsnet isna_list net cnpj w = (w1, Ok [name; date; ext]) →
  truthy name = true →
  query_mziq isna_list net name w1 = (w2, Ok fid) →
  row_body isna_list repr net idx cnpj {| calls := w; data := Some d |}
  = ({| calls := w2;
        data := Some (alter (reconciled date fid ext
                               (re_sub cnpj_punct "" (py_str repr cnpj)))
                            idx d) |}, Ok tt).
Proof.
  intros H1 Ht H2.
  pose proof (query_fundsnet_named _ _ _ _ _ _ H1 Ht) as Habs.
  unfold row_body. run_ok H1. run_ok H1. rewrite Ht. run_ok H2.
  do 3 run_ok H1. rewrite (normalize_cnpj_present _ Habs). run_ok H1.
  rewrite at_set_some. by rewrite !list_alter_alter_eq.
Qed.

(** The iteration of a row for which the second lookup raises. *)
Lemma row_body_mziq_raise idx cnpj w d w1 name date ext w2 e :
  query_fundsnet isna_list net cnpj w = (w1, Ok [name; date; ext]) →
  truthy name = true →
  query_mziq isna_list net name w1 = (w2, Raise e) →
  row_body isna_list repr net idx cnpj {| calls := w; data := Some d |}
  = ({| calls := w2; data := Some d |}, Raise e).
Proof.
  intros H1 Ht H2. unfold row_body. run_ok H1. run_ok H1. rewrite Ht.
  by run_raise H2.
Qed.

(** The iteration of a row for which no fund is named: the frame is left
    as it is, whether the body returns or raises. *)
Lemma row_body_unnamed idx cnpj w d :
  names_fund (query_fundsnet isna_list net cnpj w).2 = false →
  ∃ res,
    row_body isna_list repr net idx cnpj {| calls := w; data := Some d |}
    = ({| calls := (query_fundsnet isna_list net cnpj w).1; data := Some d |},
       res).
Proof.
  unfold row_body.
  destruct (query_fundsnet _ _ _ w) as [w1 [t|e]] eqn:H1; simpl.
  - run_ok H1. destruct t as [|a [|b [|c [|x t]]]]; simpl.
    1-3, 5: by run_raise H1; eauto.
    intros Ha. run_ok H1. rewrite Ha. by eexists.
  - intros _. run_raise H1. by eexists.
Qed.

Lemma process_row_unnamed idx r w d :
  names_fund (query_fundsnet isna_list net (row_get r "CNPJ") w).2 = false →
  process_row isna_list repr net (idx, r) {| calls := w; data := Some d |}
  = ({| calls := (query_fundsnet isna_list net (row_get r "CNPJ") w).1;
        data := Some d |}, Ok tt).
Proof.
  intros Hn. unfold process_row, try_except. simpl.
  destruct (row_body_unnamed idx _ _ d Hn) as [[[]|e] ->]; done.
Qed.

(** When the body of an iteration raises, nothing has been written. *)
Lemma row_body_raise_frame idx cnpj w d s1 e :
  row_body isna_list repr net idx cnpj {| calls := w; data := Some d |}
  = (s1, Raise e) →
  data s1 = Some d.
Proof.
  destruct (names_fund (query_fundsnet isna_list net cnpj w).2) eqn:Hn.
  - destruct (query_fundsnet _ _ _ w) as [w1 res] eqn:H1. simpl in Hn.
    destruct res as [[|name [|date [|ext [|x t]]]]|e']; try done.
    destruct (query_mziq isna_list net name w1) as [w2 [fid|e']] eqn:H2.
    + by rewrite (row_body_named _ _ _ _ _ _ _ _ _ _ H1 Hn H2).
    + rewrite (row_body_mziq_raise _ _ _ _ _ _ _ _ _ _ H1 Hn H2).
      by intros [= <- _].
  - destruct (row_body_unnamed idx _ _ d Hn) as [res ->]. by intros [= <- _].
Qed.

Lemma process_row_ok ir s :
  ∃ s1, process_row isna_list repr net ir s = (s1, Ok tt).
Proof.
  unfold process_row, try_except.
  destruct (row_body _ _ _ _ _ s) as [s1 [[]|e]]; eauto.
Qed.

Lemma reconciled_frame date fid ext norm (r : row) col :
  col ∉ derived_columns →
  reconciled date fid ext norm r !! col = r !! col.
Proof.
  intros Hcol. unfold reconciled.
  rewrite !lookup_insert_ne; [done|..];
    intros <-; apply Hcol; unfold derived_columns; set_solver.
Qed.

Lemma with_defaults_frame (r : row) col :
  col ∉ derived_columns → with_defaults r !! col = r !! col.
Proof.
  intros Hcol. unfold with_defaults.
  rewrite !lookup_insert_ne; [done|..];
    intros <-; apply Hcol; unfold derived_columns; set_solver.
Qed.

(** An iteration rewrites one row of the frame, and in that row only the
    four derived columns. *)
Lemma process_row_shape idx r w d :
  ∃ w' f,
    process_row isna_list repr net (idx, r) {| calls := w; data := Some d |}
    = ({| calls := w'; data := Some (alter f idx d) |}, Ok tt)
    ∧ ∀ (x : row) col, col ∉ derived_columns → f x !! col = x !! col.
Proof.
  destruct (names_fund (query_fundsnet isna_list net (row_get r "CNPJ") w).2)
    eqn:Hn.
  - destruct (query_fundsnet _ _ _ w) as [w1 res] eqn:H1. simpl in Hn.
    destruct res as [[|name [|date [|ext [|x t]]]]|e]; try done.
    unfold process_row, try_except. simpl.
    destruct (query_mziq isna_list net name w1) as [w2 [fid|e]] eqn:H2.
    + rewrite (row_body_named _ _ _ _ _ _ _ _ _ _ H1 Hn H2).
      eexists _, _. split; [done|]. intros x col. apply reconciled_frame.
    + rewrite (row_body_mziq_raise _ _ _ _ _ _ _ _ _ _ H1 Hn H2).
      exists w2, id. split; [|done]. by rewrite list_alter_id.
  - rewrite (process_row_unnamed _ _ _ _ Hn).
    eexists _, id. split; [|done]. by rewrite list_alter_id.
Qed.

(** ** The loop *)

(** A run of iterations keeps the number of rows, leaves alone the rows
    whose label is not iterated, and everywhere the columns that are not
    derived. *)
Lemma for_each_rows (l : list (nat * row)) w d :
  ∃ w' d',
    for_each l (process_row isna_list repr net)
             {| calls := w; data := Some d |}
    = ({| calls := w'; data := Some d' |}, Ok tt)
    ∧ List.length d' = List.length d
    ∧ (∀ i, i ∉ l.*1 → d' !! i = d !! i)
    ∧ (∀ i col, col ∉ derived_columns → cell d' i col = cell d i col).
Proof.
  revert w d. induction l as [|[idx r] l IH]; intros w d; simpl.
  { by exists w, d. }
  destruct (process_row_shape idx r w d) as (w1 & f & Hrow & Hf).
  destruct (IH w1 (alter f idx d)) as (w' & d' & Hrun & Hlen & Hother & Hcol).
  exists w', d'. run_ok Hrow. split; [done|]. split; [|split].
  - by rewrite Hlen, length_alter.
  - intros i [Hne Hi]%not_elem_of_cons.
    rewrite (Hother i Hi). by apply list_lookup_alter_ne.
  - intros i col Hc. rewrite (Hcol i col Hc). unfold cell.
    destruct (decide (idx = i)) as [->|Hne].
    + rewrite list_lookup_alter_eq. destruct (d !! i); simpl; auto.
    + by rewrite list_lookup_alter_ne.
Qed.

Lemma add_columns_run w (t : list row) :
  add_columns {| calls := w; data := Some t |}
  = ({| calls := w; data := Some (with_defaults <$> t) |}, Ok tt).
Proof.
  unfold add_columns. do 3 run_ok I. unfold set_column. simpl.
  by rewrite <- !list_fmap_compose.
Qed.

Lemma labels_iterrows (d : list row) :
  (imap (λ idx r, (idx, r)) d).*1 = seq 0 (List.length d).
Proof.
  rewrite fmap_imap. rewrite <- (list_fmap_id (seq 0 (List.length d))).
  apply (imap_seq_0 d id).
Qed.

Lemma process_data_run w (t : list row) :
  process_data isna_list repr net {| calls := w; data := Some t |}
  = ((for_each (imap (λ idx r, (idx, r)) (with_defaults <$> t))
               (process_row isna_list repr net)
               {| calls := w; data := Some (with_defaults <$> t) |}).1,
     Ok true).
Proof.
  unfold process_data. simpl.
  run_ok (add_columns_run w t). run_ok I.
  destruct (for_each_rows (imap (λ idx r, (idx, r)) (with_defaults <$> t))
                          w (with_defaults <$> t))
    as (w' & d' & Hrun & _).
  run_ok Hrun. by rewrite Hrun.
Qed.

Lemma state_at_run w (t : list row) i :
  state_at isna_list repr net {| calls := w; data := Some t |} i
  = (for_each (take i (imap (λ idx r, (idx, r)) (with_defaults <$> t)))
              (process_row isna_list repr net)
              {| calls := w; data := Some (with_defaults <$> t) |}).1.
Proof.
  unfold state_at. run_ok (add_columns_run w t). by run_ok I.
Qed.

(** Row [i] of the output is what the iteration of row [i] leaves in that
    row, run from the object as the loop finds it there; the iterations
    before and after do not touch it. *)
Lemma output_row s (t : list row) i r :
  data s = Some t →
  t !! i = Some r →
  ∃ sfin out w di s1 d1,
    process_data isna_list repr net s = (sfin, Ok true)
    ∧ data sfin = Some out
    ∧ List.length out = List.length t
    ∧ state_at isna_list repr net s i = {| calls := w; data := Some di |}
    ∧ di !! i = Some (with_defaults r)
    ∧ process_row isna_list repr net (i, with_defaults r)
                  (state_at isna_list repr net s i) = (s1, Ok tt)
    ∧ state_at isna_list repr net s (S i) = s1
    ∧ data s1 = Some d1
    ∧ out !! i = d1 !! i.
Proof.
  destruct s as [w0 dd]. simpl. intros -> Ht.
  rewrite process_data_run, !state_at_run.
  set (d0 := with_defaults <$> t).
  set (rows := imap (λ idx r, (idx, r)) d0).
  set (f := process_row isna_list repr net).
  set (s0 := {| calls := w0; data := Some d0 |}).
  assert (Hrow : rows !! i = Some (i, with_defaults r)).
  { unfold rows, d0. by rewrite list_lookup_imap, list_lookup_fmap, Ht. }
  assert (Hlabels : rows.*1 = seq 0 (List.length t)).
  { unfold rows. rewrite labels_iterrows. unfold d0.
    by rewrite length_fmap. }
  destruct (for_each_rows (take i rows) w0 d0)
    as (wi & di & Hrun_i & Hlen_i & Hoth_i & _).
  destruct (process_row_shape i (with_defaults r) wi di)
    as (w1 & g & Hrow1 & _).
  destruct (for_each_rows (drop (S i) rows) w1 (alter g i di))
    as (wf & out & Hrun_f & Hlen_f & Hoth_f & _).
  assert (Hnext : for_each (take (S i) rows) f s0
                  = ({| calls := w1; data := Some (alter g i di) |}, Ok tt)).
  { rewrite (take_S_r _ _ _ Hrow), for_each_app by apply process_row_ok.
    fold s0 in Hrun_i. unfold f at 2. rewrite Hrun_i. simpl.
    fold f. by run_ok Hrow1. }
  assert (Hall : for_each rows f s0
                 = ({| calls := wf; data := Some out |}, Ok tt)).
  { rewrite <- (take_drop (S i) rows) at 1.
    rewrite for_each_app by apply process_row_ok.
    by rewrite Hnext. }
  exists {| calls := wf; data := Some out |}, out, wi, di,
         {| calls := w1; data := Some (alter g i di) |}, (alter g i di).
  fold s0 in Hrun_i. fold f in Hrun_i.
  rewrite Hall, Hrun_i, Hnext. simpl.
  repeat split; try done.
  - rewrite Hlen_f, length_alter, Hlen_i. unfold d0. by rewrite length_fmap.
  - rewrite Hoth_i.
    + unfold d0. by rewrite list_lookup_fmap, Ht.
    + rewrite fmap_take, Hlabels, take_seq, elem_of_seq. lia.
  - apply Hoth_f.
    rewrite fmap_drop, Hlabels, drop_seq, elem_of_seq. lia.
Qed.

Lemma row_get_with_defaults (r : row) :
  row_get (with_defaults r) "CNPJ" = row_get r "CNPJ".
Proof.
  unfold row_get. rewrite with_defaults_frame; [done|].
  unfold derived_columns. rewrite !not_elem_of_cons.
  repeat split; try done. apply not_elem_of_nil.
Qed.

(** The output row of a row whose fund is named and looked up. *)
Lemma output_named s (t : list row) i r w1 name date ext w2 fid :
  data s = Some t →
  t !! i = Some r →
  query_fundsnet isna_list net (row_get r "CNPJ")
                 (calls (state_at isna_list repr net s i))
  = (w1, Ok [name; date; ext]) →
  truthy name = true →
  query_mziq isna_list net name w1 = (w2, Ok fid) →
  ∃ sfin out,
    process_data isna_list repr net s = (sfin, Ok true)
    ∧ data sfin = Some out
    ∧ out !! i
      = Some (reconciled date fid ext
                (re_sub cnpj_punct "" (py_str repr (row_get r "CNPJ")))
                (with_defaults r)).
Proof.
  intros Hd Hr H1 Hn H2.
  destruct (output_row s t i r Hd Hr)
    as (sfin & out & w & di & s1 & d1 & Hrun & Hout & _ & Hst & Hdi & Hrow
        & _ & Hd1 & Hi).
  exists sfin, out. split; [done|]. split; [done|].
  rewrite Hst in H1, Hrow. simpl in H1.
  unfold process_row, try_except in Hrow. simpl in Hrow.
  rewrite row_get_with_defaults in Hrow.
  rewrite (row_body_named _ _ _ _ _ _ _ _ _ _ H1 Hn H2) in Hrow.
  injection Hrow as <-. simpl in Hd1. injection Hd1 as <-.
  by rewrite Hi, list_lookup_alter_eq, Hdi.
Qed.

(** The output row of a row whose iteration writes nothing. *)
Lemma output_untouched s (t : list row) i r s1 res :
  data s = Some t →
  t !! i = Some r →
  row_body isna_list repr net i (row_get r "CNPJ")
           (state_at isna_list repr net s i) = (s1, res) →
  data s1 = data (state_at isna_list repr net s i) →
  ∃ sfin out,
    process_data isna_list repr net s = (sfin, Ok true)
    ∧ data sfin = Some out
    ∧ List.length out = List.length t
    ∧ state_at isna_list repr net s (S i) = s1
    ∧ out !! i = Some (with_defaults r).
Proof.
  intros Hd Hr Hbody Hframe.
  destruct (output_row s t i r Hd Hr)
    as (sfin & out & w & di & s2 & d1 & Hrun & Hout & Hlen & Hst & Hdi & Hrow
        & Hnext & Hd1 & Hi).
  exists sfin, out. do 3 (split; [done|]).
  unfold process_row, try_except in Hrow. simpl in Hrow.
  rewrite row_get_with_defaults, Hbody in Hrow.
  assert (s2 = s1) as -> by (destruct res as [[]|e]; by injection Hrow).
  split; [done|].
  rewrite Hi. rewrite Hframe, Hst in Hd1. simpl in Hd1.
  by injection Hd1 as <-.
Qed.

Lemma output_unnamed s (t : list row) i r :
  data s = Some t →
  t !! i = Some r →
  names_fund (query_fundsnet isna_list net (row_get r "CNPJ")
                (calls (state_at isna_list repr net s i))).2 = false →
  ∃ sfin out,
    process_data isna_list repr net s = (sfin, Ok true)
    ∧ data sfin = Some out
    ∧ out !! i = Some (with_defaults r).
Proof.
  intros Hd Hr Hn.
  destruct (output_row s t i r Hd Hr)
    as (_ & _ & w & di & _ & _ & _ & _ & _ & Hst & _).
  rewrite Hst in Hn. simpl in Hn.
  destruct (row_body_unnamed i _ _ di Hn) as [res Hbody].
  rewrite <- Hst in Hbody at 1.
  destruct (output_untouched s t i r _ res Hd Hr Hbody)
    as (sfin & out & ? & ? & _ & _ & ?); [by rewrite Hst|].
  by exists sfin, out.
Qed.

(** The second client returns whenever its guard does, so for every fund
    name that is a string. *)
Lemma query_mziq_returns name w b :
  absent isna_list name = Ok b →
  ∃ w' fid, query_mziq isna_list net name w = (w', Ok fid).
Proof.
  intros H. unfold query_mziq, bind at 1, lift at 1. rewrite H.
  destruct b; [by eexists _, _|].
  unfold try_except, ret.
  match goal with |- context [bind ?c ?k w] => destruct (bind c k w) as [w' [fid|e]] end;
    by eexists _, _.
Qed.

Lemma query_mziq_str_returns n w :
  ∃ w' fid, query_mziq isna_list net (VStr n) w = (w', Ok fid).
Proof.
  apply (query_mziq_returns _ _ (n =? "")%string).
  unfold absent. simpl. by destruct (n =? "")%string.
Qed.

Lemma reconciled_cells date fid ext norm (r : row) :
  reconciled date fid ext norm r !! "validado"
  = Some (if truthy fid then VBool (eq_str fid norm) else VBool false)
  ∧ reconciled date fid ext norm r !! "dataUltimoArquivamento" = Some date
  ∧ reconciled date fid ext norm r !! "externalId" = Some (or_empty ext)
  ∧ reconciled date fid ext norm r !! "idRedis" = Some (or_empty fid).
Proof. unfold reconciled. repeat split; by simplify_map_eq. Qed.

Lemma with_defaults_cells (r : row) :
  with_defaults r !! "validado" = Some (VBool false)
  ∧ with_defaults r !! "dataUltimoArquivamento" = Some (VStr "")
  ∧ with_defaults r !! "externalId" = Some (VStr "")
  ∧ with_defaults r !! "idRedis" = Some (VStr "").
Proof. unfold with_defaults. repeat split; by simplify_map_eq. Qed.

(** ** The row reconciler *)

(** C3. For a row whose fund the primary client names, the cell [validado]
    of the output holds a boolean, and it is true exactly when the second
    client returned a string that is not empty and equals the normalized
    taxpayer ID of the row; it is false in every other case, also when the
    second lookup raised or returned nothing. *)
Theorem validado_iff s (t : list row) i r w1 name date ext w2 res :
  data s = Some t →
  t !! i = Some r →
  query_fundsnet isna_list net (row_get r "CNPJ")
                 (calls (state_at isna_list repr net s i))
  = (w1, Ok [name; date; ext]) →
  truthy name = true →
  query_mziq isna_list net name w1 = (w2, res) →
  ∃ sfin out b,
    process_data isna_list repr net s = (sfin, Ok true)
    ∧ data sfin = Some out
    ∧ cell out i "validado" = Some (VBool b)
    ∧ (b = true ↔
       ∃ sid, res = Ok (VStr sid) ∧ sid ≠ ""
              ∧ normalize_cnpj isna_list repr (row_get r "CNPJ") = Ok sid).
Proof.
  intros Hd Hr H1 Hn H2.
  pose proof (query_fundsnet_named _ _ _ _ _ _ H1 Hn) as Habs.
  rewrite (normalize_cnpj_present _ Habs).
  destruct res as [fid|e].
  - destruct (output_named s t i r _ _ _ _ _ _ Hd Hr H1 Hn H2)
      as (sfin & out & Hrun & Hout & Hi).
    exists sfin, out, (truthy fid && eq_str fid
      (re_sub cnpj_punct "" (py_str repr (row_get r "CNPJ")))).
    do 2 (split; [done|]).
    unfold cell. rewrite Hi. simpl.
    rewrite (proj1 (reconciled_cells _ _ _ _ _)).
    split; [by destruct (truthy fid)|]. split.
    + intros [Ht He]%andb_prop.
      destruct fid as [| |b|n|sid|l|d]; try done. simpl in Ht, He.
      apply String.eqb_eq in He as <-. exists sid.
      split; [done|]. split; [|done].
      intros ->. done.
    + intros (sid & [= ->] & Hne & [= <-]). simpl.
      apply String.eqb_neq in Hne. by rewrite Hne, String.eqb_refl.
  - assert (Hunl : ∃ sfin out,
               process_data isna_list repr net s = (sfin, Ok true)
               ∧ data sfin = Some out ∧ out !! i = Some (with_defaults r)).
    { destruct (output_row s t i r Hd Hr)
        as (_ & _ & w & di & _ & _ & _ & _ & _ & Hst & _).
      rewrite Hst in H1. simpl in H1.
      pose proof (row_body_mziq_raise i _ _ di _ _ _ _ _ _ H1 Hn H2) as Hb.
      rewrite <- Hst in Hb at 1.
      destruct (output_untouched s t i r _ _ Hd Hr Hb)
        as (sfin & out & ? & ? & _ & _ & ?); [by rewrite Hst|].
      by exists sfin, out. }
    destruct Hunl as (sfin & out & Hrun & Hout & Hi).
    exists sfin, out, false. do 2 (split; [done|]).
    unfold cell. rewrite Hi. simpl.
    rewrite (proj1 (with_defaults_cells _)). split; [done|].
    split; [done|]. by intros (? & [=] & _).
Qed.

Lemma without_derived_lookup (r : row) col :
  without_derived r !! col
  = if bool_decide (col ∈ derived_columns) then None else r !! col.
Proof.
  unfold without_derived, derived_columns. rewrite !lookup_delete.
  case_bool_decide as Hin.
  - rewrite !elem_of_cons, elem_of_nil in Hin.
    destruct Hin as [->|[->|[->|[->|[]]]]]; repeat case_decide; done.
  - rewrite !not_elem_of_cons in Hin. destruct Hin as (? & ? & ? & ? & _).
    repeat case_decide; congruence.
Qed.

(** The whole run: the call returns [True], the frame keeps its rows, and
    outside the derived columns every cell is the one of the input. *)
Lemma process_data_frame s (t : list row) :
  data s = Some t →
  ∃ sfin out,
    process_data isna_list repr net s = (sfin, Ok true)
    ∧ data sfin = Some out
    ∧ List.length out = List.length t
    ∧ ∀ i col, col ∉ derived_columns → cell out i col = cell t i col.
Proof.
  destruct s as [w dd]. simpl. intros ->. rewrite process_data_run.
  destruct (for_each_rows (imap (λ idx r, (idx, r)) (with_defaults <$> t))
                          w (with_defaults <$> t))
    as (w' & out & -> & Hlen & _ & Hcol).
  eexists _, out. simpl. do 2 (split; [done|]). split.
  - by rewrite Hlen, length_fmap.
  - intros i col Hc. rewrite (Hcol i col Hc). unfold cell.
    rewrite list_lookup_fmap. destruct (t !! i); simpl; [|done].
    by apply with_defaults_frame.
Qed.

(** C4. The output table has as many rows as the input table and they are
    in the order of the input: row by row, the output without the derived
    columns is the input without them.  The call returns [True] whatever
    the lookups do. *)
Theorem row_count_and_order s (t : list row) :
  data s = Some t →
  ∃ sfin out,
    process_data isna_list repr net s = (sfin, Ok true)
    ∧ data sfin = Some out
    ∧ List.length out = List.length t
    ∧ without_derived <$> out = without_derived <$> t.
Proof.
  intros Hd.
  destruct (process_data_frame s t Hd) as (sfin & out & Hrun & Ho & Hlen & Hc).
  exists sfin, out. do 3 (split; [done|]).
  apply list_eq. intros i. rewrite !list_lookup_fmap.
  destruct (out !! i) as [r'|] eqn:Hi, (t !! i) as [r|] eqn:Hti; simpl.
  - f_equal. apply map_eq. intros col. rewrite !without_derived_lookup.
    case_bool_decide as Hin; [done|].
    specialize (Hc i col Hin). unfold cell in Hc.
    by rewrite Hi, Hti in Hc.
  - apply lookup_lt_Some in Hi. apply lookup_ge_None in Hti. lia.
  - apply lookup_lt_Some in Hti. apply lookup_ge_None in Hi. lia.
  - done.
Qed.

(** C9. The reconciler changes no cell outside the four derived columns:
    for every row and every other column, the cell of the output is the
    cell of the input (absent where the input has no such cell). *)
Theorem pass_through s (t : list row) :
  data s = Some t →
  ∃ sfin out,
    process_data isna_list repr net s = (sfin, Ok true)
    ∧ data sfin = Some out
    ∧ ∀ i col, col ∉ derived_columns → cell out i col = cell t i col.
Proof.
  intros Hd.
  destruct (process_data_frame s t Hd) as (sfin & out & Hrun & Ho & _ & Hc).
  by exists sfin, out.
Qed.

(** C5. For a row for which the primary client names no fund (it returns
    the tuple of three [None], or any answer without a truthy name), the
    four derived cells of the output are the defaults: [False] and three
    empty strings. *)
Theorem defaults_when_unnamed s (t : list row) i r :
  data s = Some t →
  t !! i = Some r →
  names_fund (query_fundsnet isna_list net (row_get r "CNPJ")
                (calls (state_at isna_list repr net s i))).2 = false →
  ∃ sfin out,
    process_data isna_list repr net s = (sfin, Ok true)
    ∧ data sfin = Some out
    ∧ cell out i "validado" = Some (VBool false)
    ∧ cell out i "dataUltimoArquivamento" = Some (VStr "")
    ∧ cell out i "externalId" = Some (VStr "")
    ∧ cell out i "idRedis" = Some (VStr "").
Proof.
  intros Hd Hr Hn.
  destruct (output_unnamed s t i r Hd Hr Hn) as (sfin & out & Hrun & Ho & Hi).
  exists sfin, out. do 2 (split; [done|]).
  unfold cell. rewrite Hi. simpl. apply with_defaults_cells.
Qed.

(** C10. For a row whose fund the primary client names and whose second
    lookup returns, the delivery date is stored as it came, with no guard,
    while the document identifier and the identifier of the second service
    are stored through [v if v else ""]: an absent delivery date leaves
    [None] in [dataUltimoArquivamento], an absent identifier leaves the
    empty string. *)
Theorem unguarded_delivery_date s (t : list row) i r w1 name date ext w2 fid :
  data s = Some t →
  t !! i = Some r →
  query_fundsnet isna_list net (row_get r "CNPJ")
                 (calls (state_at isna_list repr net s i))
  = (w1, Ok [name; date; ext]) →
  truthy name = true →
  query_mziq isna_list net name w1 = (w2, Ok fid) →
  ∃ sfin out,
    process_data isna_list repr net s = (sfin, Ok true)
    ∧ data sfin = Some out
    ∧ cell out i "dataUltimoArquivamento" = Some date
    ∧ cell out i "externalId" = Some (or_empty ext)
    ∧ cell out i "idRedis" = Some (or_empty fid)
    ∧ (date = VNone → cell out i "dataUltimoArquivamento" = Some VNone)
    ∧ (ext = VNone → cell out i "externalId" = Some (VStr ""))
    ∧ (fid = VNone → cell out i "idRedis" = Some (VStr "")).
Proof.
  intros Hd Hr H1 Hn H2.
  destruct (output_named s t i r _ _ _ _ _ _ Hd Hr H1 Hn H2)
    as (sfin & out & Hrun & Hout & Hi).
  exists sfin, out. do 2 (split; [done|]).
  unfold cell. rewrite Hi. simpl.
  destruct (reconciled_cells date fid ext
              (re_sub cnpj_punct "" (py_str repr (row_get r "CNPJ")))
              (with_defaults r)) as (_ & -> & -> & ->).
  repeat split; by intros ->.
Qed.

(** C6. When the body of the iteration of a row raises, the exception stops
    at that row: the loop goes on with the next row from the object as the
    exception left it, [process_data] returns [True] with every row in
    place, the failed row keeps its defaults, and every row of the output
    is what its own iteration writes. *)
Theorem fault_isolation s (t : list row) i r s1 e :
  data s = Some t →
  t !! i = Some r →
  row_body isna_list repr net i (row_get r "CNPJ")
           (state_at isna_list repr net s i) = (s1, Raise e) →
  ∃ sfin out,
    process_data isna_list repr net s = (sfin, Ok true)
    ∧ data sfin = Some out
    ∧ List.length out = List.length t
    ∧ state_at isna_list repr net s (S i) = s1
    ∧ out !! i = Some (with_defaults r)
    ∧ ∀ j rj, t !! j = Some rj →
        ∃ sj dj,
          process_row isna_list repr net (j, with_defaults rj)
                      (state_at isna_list repr net s j) = (sj, Ok tt)
          ∧ data sj = Some dj
          ∧ out !! j = dj !! j.
Proof.
  intros Hd Hr Hbody.
  destruct (output_row s t i r Hd Hr)
    as (_ & _ & w & di & _ & _ & _ & _ & _ & Hst & _).
  assert (Hframe : data s1 = data (state_at isna_list repr net s i)).
  { rewrite Hst in Hbody |- *. simpl.
    by apply (row_body_raise_frame _ _ _ _ _ _ Hbody). }
  destruct (output_untouched s t i r _ _ Hd Hr Hbody Hframe)
    as (sfin & out & Hrun & Ho & Hlen & Hnext & Hi).
  exists sfin, out. do 5 (split; [done|]).
  intros j rj Hj.
  destruct (output_row s t j rj Hd Hj)
    as (sfin' & out' & _ & _ & sj & dj & Hrun' & Ho' & _ & _ & _ & Hrow
        & _ & Hdj & Hoj).
  rewrite Hrun in Hrun'. injection Hrun' as <-.
  rewrite Ho in Ho'. injection Ho' as <-.
  by exists sj, dj.
Qed.

End Properties.

(** ** The scenario *)

(** C1. In the scenario of the specification the registry returns the
    delivery date ["2024-01-15T00:00:00"]; [process_data] leaves that very
    string in [dataUltimoArquivamento], whereas [format_date], which the
    loop never calls, gives ["2024-01-15"] for it. *)
Theorem filing_date_not_formatted :
  (process_data S.isna_list S.repr S.net S.start).2 = Ok true
  ∧ (out ← data (process_data S.isna_list S.repr S.net S.start).1;
     cell out 0 "dataUltimoArquivamento")
    = Some (VStr "2024-01-15T00:00:00")
  ∧ format_date S.isna_list (VStr "2024-01-15T00:00:00")
    = Ok (VStr "2024-01-15").
Proof. by vm_compute. Qed.

(** C2. When [requests.get] raises, and when the body of the answer does
    not parse, [query_fundsnet] returns a tuple of two [None], which is not
    the tuple of three that its other paths return and which the caller
    cannot unpack into three names. *)
Theorem transport_error_two_values :
  query_fundsnet S.isna_list S.offline S.cnpj []
  = (S.first_call, Ok [VNone; VNone])
  ∧ query_fundsnet S.isna_list S.garbled S.cnpj []
    = (S.first_call, Ok [VNone; VNone])
  ∧ [VNone; VNone] ≠ no_result
  ∧ unpack3 [VNone; VNone] = Raise ValueError.
Proof. by vm_compute. Qed.

Lemma normalize_cnpj_total_witness :
  normalize_cnpj S.isna_list S.repr S.cnpj = Ok "12345678000199".
Proof.
  apply (proj1 (normalize_cnpj_total S.isna_list S.repr) "12.345.678/0001-99").
  reflexivity.
Defined.

Lemma validado_iff_witness :
  ∃ sfin out b,
    process_data S.isna_list S.repr S.net S.start = (sfin, Ok true)
    ∧ data sfin = Some out
    ∧ cell out 0 "validado" = Some (VBool b)
    ∧ (b = true ↔
       ∃ sid, Ok (VStr "12345678000199") = Ok (VStr sid) ∧ sid ≠ ""
              ∧ normalize_cnpj S.isna_list S.repr (row_get S.fund_row "CNPJ")
                = Ok sid).
Proof.
  apply (validado_iff S.isna_list S.repr S.net S.start S.input 0 S.fund_row
           S.first_call (VStr "Fund X") (VStr "2024-01-15T00:00:00")
           (VStr "D1") S.both_calls (Ok (VStr "12345678000199")));
    reflexivity.
Defined.

Lemma row_count_and_order_witness :
  ∃ sfin out,
    process_data S.isna_list S.repr S.flaky S.start_two = (sfin, Ok true)
    ∧ data sfin = Some out
    ∧ List.length out = List.length S.two_rows
    ∧ without_derived <$> out = without_derived <$> S.two_rows.
Proof.
  apply (row_count_and_order S.isna_list S.repr S.flaky S.start_two
           S.two_rows).
  reflexivity.
Defined.

Lemma pass_through_witness :
  ∃ sfin out,
    process_data S.isna_list S.repr S.net S.start = (sfin, Ok true)
    ∧ data sfin = Some out
    ∧ ∀ i col, col ∉ derived_columns → cell out i col = cell S.input i col.
Proof.
  apply (pass_through S.isna_list S.repr S.net S.start S.input).
  reflexivity.
Defined.

Lemma defaults_when_unnamed_witness :
  ∃ sfin out,
    process_data S.isna_list S.repr S.unknown S.start = (sfin, Ok true)
    ∧ data sfin = Some out
    ∧ cell out 0 "validado" = Some (VBool false)
    ∧ cell out 0 "dataUltimoArquivamento" = Some (VStr "")
    ∧ cell out 0 "externalId" = Some (VStr "")
    ∧ cell out 0 "idRedis" = Some (VStr "").
Proof.
  apply (defaults_when_unnamed S.isna_list S.repr S.unknown S.start S.input 0
           S.fund_row);
    reflexivity.
Defined.

Lemma unguarded_delivery_date_witness :
  ∃ sfin out,
    process_data S.isna_list S.repr S.undated S.start = (sfin, Ok true)
    ∧ data sfin = Some out
    ∧ cell out 0 "dataUltimoArquivamento" = Some VNone
    ∧ cell out 0 "externalId" = Some (or_empty VNone)
    ∧ cell out 0 "idRedis" = Some (or_empty VNone)
    ∧ (VNone = VNone → cell out 0 "dataUltimoArquivamento" = Some VNone)
    ∧ (VNone = VNone → cell out 0 "externalId" = Some (VStr ""))
    ∧ (VNone = VNone → cell out 0 "idRedis" = Some (VStr "")).
Proof.
  apply (unguarded_delivery_date S.isna_list S.repr S.undated S.start S.input
           0 S.fund_row S.first_call (VStr "Fund X") VNone VNone
           S.both_calls VNone);
    reflexivity.
Defined.

Lemma fault_isolation_witness :
  ∃ sfin out,
    process_data S.isna_list S.repr S.flaky S.start_two = (sfin, Ok true)
    ∧ data sfin = Some out
    ∧ List.length out = List.length S.two_rows
    ∧ state_at S.isna_list S.repr S.flaky S.start_two 1 = S.after_failure
    ∧ out !! 0%nat = Some (with_defaults S.other_row)
    ∧ ∀ j rj, S.two_rows !! j = Some rj →
        ∃ sj dj,
          process_row S.isna_list S.repr S.flaky (j, with_defaults rj)
                      (state_at S.isna_list S.repr S.flaky S.start_two j)
          = (sj, Ok tt)
          ∧ data sj = Some dj
          ∧ out !! j = dj !! j.
Proof.
  apply (fault_isolation S.isna_list S.repr S.flaky S.start_two S.two_rows 0
           S.other_row S.after_failure ValueError);
    reflexivity.
Defined.

(** ** Further properties of the code *)

Lemma str_split_head sep s :
  ∃ p ps,
    str_split sep s = p :: ps
    ∧ str_contains sep p = false
    ∧ (str_contains sep s = false → p = s)
    ∧ (str_contains sep s = true → ∃ rest, s = p +:+ String sep rest).
Proof.
  induction s as [|c s (p & ps & Hsplit & Hp & Hno & Hyes)]; simpl.
  { exists EmptyString, []. by repeat split. }
  destruct (Ascii.eqb c sep) eqn:Hc; simpl.
  - apply Ascii.eqb_eq in Hc as ->.
    exists EmptyString, (str_split sep s). repeat split; try done.
    intros _. by exists s.
  - rewrite Hsplit. exists (String c p), ps. simpl. rewrite Hc. simpl.
    repeat split; try done.
    + by intros ->%Hno.
    + intros [rest ->]%Hyes. by exists rest.
Qed.

Lemma re_sub_delete_sublist cls s :
  sublist (list_ascii_of_string (re_sub cls "" s)) (list_ascii_of_string s).
Proof.
  induction s as [|c s IH]; [done|].
  rewrite re_sub_delete_cons. simpl.
  destruct (cls c); simpl; by constructor.
Qed.

Section More.

Variable isna_list : list value → result bool.
Variable repr : value → string.
Variable net : world → request → option response.

(** *** The date formatter *)

Lemma format_date_str s :
  ∃ p,
    format_date isna_list (VStr s) = Ok (VStr p)
    ∧ str_contains "T" p = false
    ∧ (str_contains "T" s = false → p = s)
    ∧ (str_contains "T" s = true → ∃ rest, s = p +:+ String "T" rest).
Proof.
  destruct s as [|c s]; [by exists EmptyString|].
  assert (Habs : absent isna_list (VStr (String c s)) = Ok false)
    by reflexivity.
  destruct (str_split_head "T" (String c s))
    as (p & ps & Hsplit & Hp & Hno & Hyes).
  unfold format_date. rewrite Habs.
  unfold rbind, contains_T, split_T_first. rewrite Hsplit.
  destruct (str_contains "T" (String c s)) eqn:Hc.
  - exists p. repeat split; try done; by apply Hyes.
  - exists (String c s). by repeat split.
Qed.

Lemma format_date_other v :
  (∀ s, v ≠ VStr s) →
  absent isna_list v = Ok false →
  format_date isna_list v = Ok v.
Proof.
  intros Hv Habs. unfold format_date. rewrite Habs. simpl.
  destruct v as [| |b|n|s|l|d]; simpl; try done.
  - by destruct (Hv s).
  - by destruct (existsb _ l).
  - by destruct (bool_decide _).
Qed.

(** X1. For a string, [format_date] returns the part before the first
    ["T"]: the result holds no ["T"], it is the input when the input holds
    none, and otherwise the input is the result, a ["T"] and a rest. *)
Theorem format_date_prefix s :
  ∃ p,
    format_date isna_list (VStr s) = Ok (VStr p)
    ∧ str_contains "T" p = false
    ∧ (str_contains "T" s = false → p = s)
    ∧ (str_contains "T" s = true → ∃ rest, s = p +:+ String "T" rest).
Proof. apply format_date_str. Qed.

(** X2. Formatting a formatted date changes nothing, for every value; where
    the first call raises, so does the composition. *)
Theorem format_date_idempotent v :
  (d <~ format_date isna_list v ;; format_date isna_list d)
  = format_date isna_list v.
Proof.
  destruct (absent isna_list v) as [[|]|e] eqn:Habs.
  - assert (format_date isna_list v = Ok (VStr "")) as ->; [|done].
    unfold format_date. by rewrite Habs.
  - assert ((∃ s, v = VStr s) ∨ ∀ s, v ≠ VStr s) as [[s ->]|Hv]
      by (destruct v; eauto; by right).
    + destruct (format_date_str s) as (p & -> & Hp & _). simpl.
      destruct (format_date_str p) as (p' & -> & _ & Hsame & _).
      by rewrite (Hsame Hp).
    + assert (format_date isna_list v = Ok v) as Hf.
      { by apply format_date_other. }
      by rewrite Hf.
  - assert (format_date isna_list v = Raise e) as ->; [|done].
    unfold format_date. by rewrite Habs.
Qed.

(** X3. A value that is not a string and passes the guard comes back as it
    is: the [TypeError] of ["T" in v] and the [AttributeError] of
    [v.split] are swallowed.  A value caught by the guard gives the empty
    string. *)
Theorem format_date_non_string v b :
  (∀ s, v ≠ VStr s) →
  absent isna_list v = Ok b →
  format_date isna_list v = Ok (if b then VStr "" else v).
Proof.
  intros Hv Habs. destruct b; [|by apply format_date_other].
  unfold format_date. by rewrite Habs.
Qed.

(** *** The identifier normalizer, on every value *)

(** X4. Whatever the input, a result of [normalize_cnpj] holds none of the
    characters [.], [/], [-], and its characters are characters of
    [str(cnpj)] in their order: for the integer [-12345] the sign goes as
    well. *)
Theorem normalize_cnpj_no_punct v s :
  normalize_cnpj isna_list repr v = Ok s →
  forallb (λ c, negb (cnpj_punct c)) (list_ascii_of_string s) = true
  ∧ sublist (list_ascii_of_string s) (list_ascii_of_string (py_str repr v)).
Proof.
  unfold normalize_cnpj.
  destruct (absent isna_list v) as [[|]|e]; simpl; [| |done].
  - intros [= <-]. split; [done|]. apply sublist_nil_l.
  - intros [= <-]. split; [|apply re_sub_delete_sublist].
    rewrite re_sub_delete_filter. apply forallb_forall.
    by intros c [_ Hc]%filter_In.
Qed.

(** *** The two clients *)

Lemma query_fundsnet_present cnpj w :
  absent isna_list cnpj = Ok false →
  ∃ t,
    query_fundsnet isna_list net cnpj w
    = ((w ++ [fundsnet_request cnpj])%list, Ok t)
    ∧ (List.length t = 3%nat ∨ t = [VNone; VNone]).
Proof.
  intros Habs.
  unfold query_fundsnet, bind, lift, try_except, requests_get, ret, no_result.
  rewrite Habs.
  repeat case_match; simplify_eq; eexists; (split; [done|]); auto.
Qed.

(** X5. Once its guard has answered, [query_fundsnet] never raises and
    sends at most one request, appended to the log: none for an absent
    taxpayer ID, exactly the registry request otherwise.  The tuple it
    returns has three components, or it is the pair of [None] of the
    [except] branch. *)
Theorem query_fundsnet_one_request cnpj w b :
  absent isna_list cnpj = Ok b →
  ∃ t,
    query_fundsnet isna_list net cnpj w
    = ((w ++ if b then [] else [fundsnet_request cnpj])%list, Ok t)
    ∧ (List.length t = 3%nat ∨ t = [VNone; VNone]).
Proof.
  intros Habs. destruct b; [|by apply query_fundsnet_present].
  exists no_result. rewrite app_nil_r. split; [|by left].
  unfold query_fundsnet, bind, lift. by rewrite Habs.
Qed.

(** X6. On an answer with status 200 whose [data] is a list that starts
    with an object, [query_fundsnet] returns the fields [descricaoFundo],
    [dataEntrega] and [id] of that first object, [None] for a field the
    object does not have; the other elements of the list are not read. *)
Theorem query_fundsnet_success cnpj w r d info others :
  absent isna_list cnpj = Ok false →
  net w (fundsnet_request cnpj) = Some r →
  status_code r = 200 →
  json r = Some (VDict d) →
  assoc "data" d = Some (VList (VDict info :: others)) →
  query_fundsnet isna_list net cnpj w
  = ((w ++ [fundsnet_request cnpj])%list,
     Ok [default VNone (assoc "descricaoFundo" info);
         default VNone (assoc "dataEntrega" info);
         default VNone (assoc "id" info)]).
Proof.
  intros Habs Hnet Hst Hjs Hdata.
  unfold query_fundsnet, bind, lift, try_except, requests_get, ret,
    response_json.
  rewrite Habs, Hnet, Hst, Hjs. simpl. by rewrite Hdata.
Qed.

(** X7. For a taxpayer ID that is falsy ([None], the empty string, [0]) or
    [nan], [query_fundsnet] returns three [None] and leaves the log as it
    is: no request is sent. *)
Theorem query_fundsnet_skips_absent cnpj w :
  truthy cnpj = false ∨ cnpj = VNaN →
  query_fundsnet isna_list net cnpj w = (w, Ok no_result).
Proof.
  intros Hc. unfold query_fundsnet, bind, lift.
  assert (absent isna_list cnpj = Ok true) as ->; [|done].
  unfold absent. by destruct Hc as [->| ->].
Qed.

(** X8. Once its guard has answered, [query_mziq] never raises and sends at
    most one request, appended to the log: none for an absent fund name,
    for which it returns [None], and exactly the request with that name
    otherwise. *)
Theorem query_mziq_one_request name w b :
  absent isna_list name = Ok b →
  ∃ fid,
    query_mziq isna_list net name w
    = ((w ++ if b then [] else [mziq_request name])%list, Ok fid)
    ∧ (b = true → fid = VNone).
Proof.
  intros Habs.
  unfold query_mziq, bind, lift, try_except, requests_get, ret, mziq_request.
  rewrite Habs. destruct b.
  - exists VNone. by rewrite app_nil_r.
  - repeat case_match; simplify_eq; eexists; (split; [done|]); done.
Qed.

(** X9. Every failure of the second lookup gives [None]: a request that
    raises, a status other than 200, a body that does not parse, a body
    that is not an object. *)
Theorem query_mziq_failure_none name w :
  absent isna_list name = Ok false →
  net w (mziq_request name) = None
  ∨ (∃ r, net w (mziq_request name) = Some r
          ∧ (status_code r ≠ 200
             ∨ json r = None
             ∨ ∃ v, json r = Some v ∧ ∀ d, v ≠ VDict d)) →
  query_mziq isna_list net name w
  = ((w ++ [mziq_request name])%list, Ok VNone).
Proof.
  intros Habs Hfail.
  unfold query_mziq, bind, lift, try_except, requests_get, ret, response_json.
  rewrite Habs. fold (mziq_request name).
  destruct Hfail as [->|(r & -> & Hr)]; [done|].
  destruct (status_code r =? 200) eqn:Hst.
  - apply Z.eqb_eq in Hst.
    destruct Hr as [Hr|[->|(v & -> & Hv)]]; [done|done|].
    destruct v; simpl; try done. by destruct (Hv d).
  - done.
Qed.

(** X10. On an answer with status 200 whose body is an object,
    [query_mziq] returns its field [id], [None] when there is none. *)
Theorem query_mziq_success name w r d :
  absent isna_list name = Ok false →
  net w (mziq_request name) = Some r →
  status_code r = 200 →
  json r = Some (VDict d) →
  query_mziq isna_list net name w
  = ((w ++ [mziq_request name])%list, Ok (default VNone (assoc "id" d))).
Proof.
  intros Habs Hnet Hst Hjs.
  unfold query_mziq, bind, lift, try_except, requests_get, ret, response_json.
  rewrite Habs. fold (mziq_request name). by rewrite Hnet, Hst, Hjs.
Qed.

(** *** The requests of a run *)

Lemma query_mziq_present name w :
  absent isna_list name = Ok false →
  ∃ fid,
    query_mziq isna_list net name w
    = ((w ++ [mziq_request name])%list, Ok fid).
Proof.
  intros Habs.
  unfold query_mziq, bind, lift, try_except, requests_get, ret, mziq_request.
  rewrite Habs. repeat case_match; simplify_eq; by eexists.
Qed.

Lemma query_mziq_grows name w :
  ∃ extra,
    (query_mziq isna_list net name w).1 = (w ++ extra)%list
    ∧ (extra = [] ∨ extra = [mziq_request name]).
Proof.
  destruct (absent isna_list name) as [[|]|e] eqn:Habs.
  - exists []. rewrite app_nil_r. split; [|by left].
    unfold query_mziq, bind, lift. by rewrite Habs.
  - destruct (query_mziq_present name w Habs) as [fid ->].
    exists [mziq_request name]. split; [done|by right].
  - exists []. rewrite app_nil_r. split; [|by left].
    unfold query_mziq, bind, lift. by rewrite Habs.
Qed.

Lemma query_fundsnet_grows cnpj w :
  ∃ extra,
    (query_fundsnet isna_list net cnpj w).1 = (w ++ extra)%list
    ∧ (extra = [] ∨ extra = [fundsnet_request cnpj]).
Proof.
  destruct (absent isna_list cnpj) as [[|]|e] eqn:Habs.
  - exists []. rewrite app_nil_r. split; [|by left].
    by rewrite (query_fundsnet_absent _ _ _ _ Habs).
  - destruct (query_fundsnet_present cnpj w Habs) as (t & -> & _).
    exists [fundsnet_request cnpj]. split; [done|by right].
  - exists []. rewrite app_nil_r. split; [|by left].
    unfold query_fundsnet, bind, lift. by rewrite Habs.
Qed.

(** The requests of one iteration: those of the first lookup, then those of
    the second when a fund is named. *)
Lemma process_row_calls idx r w d :
  ∃ extra1 extra2,
    (query_fundsnet isna_list net (row_get r "CNPJ") w).1
    = (w ++ extra1)%list
    ∧ calls (process_row isna_list repr net (idx, r)
             {| calls := w; data := Some d |}).1
    = (w ++ extra1 ++ extra2)%list
    ∧ (extra1 = [] ∨ extra1 = [fundsnet_request (row_get r "CNPJ")])
    ∧ (extra2 = []
       ∨ ∃ w1 name date ext,
           query_fundsnet isna_list net (row_get r "CNPJ") w
           = (w1, Ok [name; date; ext])
           ∧ truthy name = true
           ∧ extra2 = [mziq_request name]).
Proof.
  destruct (query_fundsnet_grows (row_get r "CNPJ") w) as (e1 & Hw1 & He1).
  destruct (names_fund (query_fundsnet isna_list net (row_get r "CNPJ") w).2)
    eqn:Hn.
  - destruct (query_fundsnet _ _ _ w) as [w1 res] eqn:H1.
    simpl in Hn, Hw1. subst w1.
    destruct res as [[|name [|date [|ext [|x t]]]]|e]; try done.
    destruct (query_mziq_grows name (w ++ e1)) as (e2 & Hw2 & He2).
    exists e1, e2. split; [done|]. split; [|split; [done|]].
    + unfold process_row, try_except. simpl.
      destruct (query_mziq isna_list net name (w ++ e1)%list)
        as [w2 [fid|e]] eqn:H2; simpl in Hw2; subst w2.
      * rewrite (row_body_named isna_list repr net _ _ _ _ _ _ _ _ _ _ H1 Hn H2). simpl.
        by rewrite app_assoc.
      * rewrite (row_body_mziq_raise isna_list repr net _ _ _ _ _ _ _ _ _ _ H1 Hn H2). simpl.
        by rewrite app_assoc.
    + destruct He2 as [->| ->]; [by left|right]. by eexists _, _, _, _.
  - exists e1, [].
    rewrite (process_row_unnamed isna_list repr net _ _ _ _ Hn). simpl.
    rewrite app_nil_r. do 3 (split; [done|]). by left.
Qed.

Lemma for_each_calls (l : list (nat * row)) w d :
  ∃ extra,
    calls (for_each l (process_row isna_list repr net)
             {| calls := w; data := Some d |}).1
    = (w ++ extra)%list
    ∧ (List.length extra ≤ 2 * List.length l)%nat.
Proof.
  revert w d. induction l as [|[idx r] l IH]; intros w d; simpl.
  { exists []. by rewrite app_nil_r. }
  destruct (process_row_shape isna_list repr net idx r w d)
    as (w1 & f & Hrow & _).
  destruct (process_row_calls idx r w d) as (e1 & e2 & _ & Hc & He1 & He2).
  rewrite Hrow in Hc. simpl in Hc. subst w1.
  destruct (IH (w ++ e1 ++ e2)%list (alter f idx d)) as (e3 & Hc3 & Hlen).
  run_ok Hrow. rewrite Hc3.
  exists (e1 ++ e2 ++ e3)%list. split; [by rewrite <- !app_assoc|].
  rewrite !length_app.
  assert (List.length e1 ≤ 1)%nat by (destruct He1 as [->| ->]; simpl; lia).
  assert (List.length e2 ≤ 1)%nat
    by (destruct He2 as [->|(? & ? & ? & ? & _ & _ & ->)]; simpl; lia).
  lia.
Qed.

(** X11. [process_data] never raises.  It returns [True] exactly when a
    table is loaded; with none loaded it returns [False] and changes
    nothing. *)
Theorem process_data_loaded_iff s :
  ∃ sfin,
    process_data isna_list repr net s
    = (sfin, Ok (bool_decide (is_Some (data s))))
    ∧ (data s = None → sfin = s).
Proof.
  destruct s as [w [t|]].
  - destruct (process_data_frame isna_list repr net
                {| calls := w; data := Some t |} t eq_refl)
      as (sfin & out & -> & _).
    by exists sfin.
  - by eexists.
Qed.

(** X12. A run sends at most two requests for each row, and it only adds to
    the log: the requests made before the run are still its beginning. *)
Theorem request_bound s (t : list row) :
  data s = Some t →
  ∃ extra,
    calls (process_data isna_list repr net s).1 = (calls s ++ extra)%list
    ∧ (List.length extra ≤ 2 * List.length t)%nat.
Proof.
  destruct s as [w dd]. simpl. intros ->. rewrite process_data_run. simpl.
  destruct (for_each_calls (imap (λ idx r, (idx, r)) (with_defaults <$> t))
                           w (with_defaults <$> t)) as (extra & -> & Hlen).
  exists extra. split; [done|].
  by rewrite length_imap, length_fmap in Hlen.
Qed.

Lemma for_each_absent (l : list (nat * row)) w d :
  Forall (λ ir, absent isna_list (row_get ir.2 "CNPJ") = Ok true) l →
  for_each l (process_row isna_list repr net) {| calls := w; data := Some d |}
  = ({| calls := w; data := Some d |}, Ok tt).
Proof.
  induction 1 as [|[idx r] l Habs _ IH]; simpl; [done|].
  simpl in Habs.
  assert (Hrow : process_row isna_list repr net (idx, r)
                   {| calls := w; data := Some d |}
                 = ({| calls := w; data := Some d |}, Ok tt)).
  { rewrite process_row_unnamed;
      by rewrite (query_fundsnet_absent _ _ _ _ Habs). }
  by run_ok Hrow.
Qed.

(** X13. When no row has a taxpayer ID (the cell is empty, or the table has
    no column [CNPJ]), a run sends no request at all and the output is the
    input with the four columns at their defaults. *)
Theorem no_cnpj_no_requests s (t : list row) :
  data s = Some t →
  Forall (λ r, absent isna_list (row_get r "CNPJ") = Ok true) t →
  process_data isna_list repr net s
  = ({| calls := calls s; data := Some (with_defaults <$> t) |}, Ok true).
Proof.
  destruct s as [w dd]. simpl. intros -> Ht.
  rewrite process_data_run, for_each_absent; [done|].
  apply Forall_lookup. intros i [j r'] Hi.
  rewrite list_lookup_imap, list_lookup_fmap in Hi.
  destruct (t !! i) as [r|] eqn:Hti; [|done].
  simpl in Hi. injection Hi as <- <-. simpl.
  rewrite row_get_with_defaults.
  by apply (proj1 (Forall_lookup _ _) Ht i r).
Qed.

(** X14. For a row that has a taxpayer ID, the first request of its
    iteration goes to the registry and carries the cell as it is in the
    table, not normalized.  At most one request follows: the one to the
    second service, sent only when the registry named a fund, with that
    name. *)
Theorem row_trace s (t : list row) i r :
  data s = Some t →
  t !! i = Some r →
  absent isna_list (row_get r "CNPJ") = Ok false →
  ∃ rest,
    calls (state_at isna_list repr net s (S i))
    = (calls (state_at isna_list repr net s i)
       ++ fundsnet_request (row_get r "CNPJ") :: rest)%list
    ∧ (rest = []
       ∨ ∃ w1 name date ext,
           query_fundsnet isna_list net (row_get r "CNPJ")
                          (calls (state_at isna_list repr net s i))
           = (w1, Ok [name; date; ext])
           ∧ truthy name = true
           ∧ rest = [mziq_request name]).
Proof.
  intros Hd Hr Habs.
  destruct (output_row isna_list repr net s t i r Hd Hr)
    as (_ & _ & w & di & s1 & _ & _ & _ & _ & Hst & _ & Hrow & -> & _).
  rewrite Hst in Hrow |- *. simpl.
  destruct (process_row_calls i (with_defaults r) w di)
    as (e1 & e2 & Hq1 & Hc & _ & He2).
  rewrite Hrow in Hc. simpl in Hc.
  rewrite row_get_with_defaults in Hq1, He2.
  destruct (query_fundsnet_present _ w Habs) as (tp & Hq & _).
  rewrite Hq in Hq1. simpl in Hq1. apply app_inv_head in Hq1 as <-.
  exists e2. by rewrite Hc.
Qed.

(** *** The derived columns *)

Lemma with_defaults_without_derived (r : row) :
  with_defaults (without_derived r) = with_defaults r.
Proof.
  apply map_eq. intros col.
  destruct (decide (col ∈ derived_columns)) as [Hin|Hout].
  - unfold derived_columns in Hin.
    rewrite !elem_of_cons, elem_of_nil in Hin.
    destruct (with_defaults_cells (without_derived r)) as (? & ? & ? & ?).
    destruct (with_defaults_cells r) as (? & ? & ? & ?).
    destruct Hin as [->|[->|[->|[->|[]]]]]; congruence.
  - rewrite !with_defaults_frame, without_derived_lookup by done.
    by rewrite bool_decide_eq_false_2.
Qed.

(** X15. What the input table holds in the four derived columns has no
    effect: a run on the table and a run on the table without these columns
    end in the same object. *)
Theorem stale_columns_discarded w (t : list row) :
  process_data isna_list repr net
    {| calls := w; data := Some (without_derived <$> t) |}
  = process_data isna_list repr net {| calls := w; data := Some t |}.
Proof.
  rewrite !process_data_run. rewrite <- list_fmap_compose.
  assert (with_defaults ∘ without_derived <$> t = with_defaults <$> t) as ->;
    [|done].
  apply list_fmap_ext. intros i r _. apply with_defaults_without_derived.
Qed.

(** The output row of a row whose second lookup raises. *)
Lemma output_mziq_raise s (t : list row) i r w1 name date ext w2 e :
  data s = Some t →
  t !! i = Some r →
  query_fundsnet isna_list net (row_get r "CNPJ")
                 (calls (state_at isna_list repr net s i))
  = (w1, Ok [name; date; ext]) →
  truthy name = true →
  query_mziq isna_list net name w1 = (w2, Raise e) →
  ∃ sfin out,
    process_data isna_list repr net s = (sfin, Ok true)
    ∧ data sfin = Some out
    ∧ out !! i = Some (with_defaults r).
Proof.
  intros Hd Hr H1 Hn H2.
  destruct (output_row isna_list repr net s t i r Hd Hr)
    as (_ & _ & w & di & _ & _ & _ & _ & _ & Hst & _).
  rewrite Hst in H1. simpl in H1.
  pose proof (row_body_mziq_raise isna_list repr net i _ _ di _ _ _ _ _ _
                H1 Hn H2) as Hb.
  rewrite <- Hst in Hb at 1.
  destruct (output_untouched isna_list repr net s t i r _ _ Hd Hr Hb)
    as (sfin & out & ? & ? & _ & _ & ?); [by rewrite Hst|].
  by exists sfin, out.
Qed.

(** Every output row is the input row with the defaults, or with the four
    cells written from a date, two identifiers and the normalized taxpayer
    ID. *)
Lemma output_cases s (t : list row) i r :
  data s = Some t →
  t !! i = Some r →
  ∃ sfin out,
    process_data isna_list repr net s = (sfin, Ok true)
    ∧ data sfin = Some out
    ∧ (out !! i = Some (with_defaults r)
       ∨ ∃ date fid ext norm,
           normalize_cnpj isna_list repr (row_get r "CNPJ") = Ok norm
           ∧ out !! i = Some (reconciled date fid ext norm (with_defaults r))).
Proof.
  intros Hd Hr.
  destruct (names_fund (query_fundsnet isna_list net (row_get r "CNPJ")
                          (calls (state_at isna_list repr net s i))).2)
    eqn:Hn.
  - destruct (query_fundsnet _ _ _ _) as [w1 res] eqn:H1. simpl in Hn.
    destruct res as [[|name [|date [|ext [|x tp]]]]|e]; try done.
    destruct (query_mziq isna_list net name w1) as [w2 [fid|e]] eqn:H2.
    + destruct (output_named isna_list repr net s t i r _ _ _ _ _ _
                  Hd Hr H1 Hn H2) as (sfin & out & ? & ? & Hi).
      exists sfin, out. do 2 (split; [done|]). right.
      eexists date, fid, ext, _. split; [|done].
      apply normalize_cnpj_present.
      by apply (query_fundsnet_named isna_list net _ _ _ _ _ _ H1 Hn).
    + destruct (output_mziq_raise s t i r _ _ _ _ _ _ Hd Hr H1 Hn H2)
        as (sfin & out & ? & ? & Hi).
      exists sfin, out. do 2 (split; [done|]). by left.
  - destruct (output_unnamed isna_list repr net s t i r Hd Hr Hn)
      as (sfin & out & ? & ? & Hi).
    exists sfin, out. do 2 (split; [done|]). by left.
Qed.

(** X16. In every output row the four derived cells are there; [validado]
    is a boolean, and [externalId] and [idRedis] are either truthy or the
    empty string, never [None] or another falsy value. *)
Theorem derived_cells_shape s (t : list row) i r :
  data s = Some t →
  t !! i = Some r →
  ∃ sfin out b date ext fid,
    process_data isna_list repr net s = (sfin, Ok true)
    ∧ data sfin = Some out
    ∧ cell out i "validado" = Some (VBool b)
    ∧ cell out i "dataUltimoArquivamento" = Some date
    ∧ cell out i "externalId" = Some ext
    ∧ (truthy ext = true ∨ ext = VStr "")
    ∧ cell out i "idRedis" = Some fid
    ∧ (truthy fid = true ∨ fid = VStr "").
Proof.
  intros Hd Hr.
  destruct (output_cases s t i r Hd Hr)
    as (sfin & out & Hrun & Hout & [Hi|(date & fid & ext & norm & _ & Hi)]).
  - destruct (with_defaults_cells r) as (Hv & Hdt & He & Hf).
    exists sfin, out, false, (VStr ""), (VStr ""), (VStr "").
    unfold cell. rewrite Hi. simpl. rewrite Hv, Hdt, He, Hf.
    repeat split; try done; by right.
  - destruct (reconciled_cells date fid ext norm (with_defaults r))
      as (Hv & Hdt & He & Hf).
    exists sfin, out, (truthy fid && eq_str fid norm), date,
           (or_empty ext), (or_empty fid).
    unfold cell. rewrite Hi. simpl. rewrite Hv, Hdt, He, Hf.
    repeat split; try done.
    + by destruct (truthy fid).
    + unfold or_empty. destruct (truthy ext) eqn:E; [by left|by right].
    + unfold or_empty. destruct (truthy fid) eqn:E; [by left|by right].
Qed.

(** X17. A row marked as validated carries the evidence: when [validado] is
    [True] in an output row, its [idRedis] is a string that is not empty
    and is the normalized taxpayer ID of the row. *)
Theorem validado_true_idRedis s (t : list row) i r sfin out :
  data s = Some t →
  t !! i = Some r →
  process_data isna_list repr net s = (sfin, Ok true) →
  data sfin = Some out →
  cell out i "validado" = Some (VBool true) →
  ∃ n,
    cell out i "idRedis" = Some (VStr n)
    ∧ n ≠ ""
    ∧ normalize_cnpj isna_list repr (row_get r "CNPJ") = Ok n.
Proof.
  intros Hd Hr Hrun Hout Hval.
  destruct (output_cases s t i r Hd Hr)
    as (sfin' & out' & Hrun' & Hout' & Hcase).
  rewrite Hrun in Hrun'. injection Hrun' as <-.
  rewrite Hout in Hout'. injection Hout' as <-.
  unfold cell in Hval |- *.
  destruct Hcase as [Hi|(date & fid & ext & norm & Hnorm & Hi)];
    rewrite Hi in Hval |- *; simpl in Hval |- *.
  - by rewrite (proj1 (with_defaults_cells r)) in Hval.
  - destruct (reconciled_cells date fid ext norm (with_defaults r))
      as (Hv & _ & _ & Hf).
    rewrite Hv in Hval. rewrite Hf.
    destruct fid as [| |b|z|n|l|d]; simpl in Hval;
      try (by destruct (negb _)); try done.
    + by destruct b.
    + exists n. unfold or_empty. simpl.
      destruct (negb (n =? "")%string) eqn:Hne; [|done].
      injection Hval as Heq%String.eqb_eq. subst norm.
      split; [done|]. split; [|done].
      intros ->. done.
Qed.

End More.

(** *** The whole run *)

Section WholeRun.

Variable isna_list : list value → result bool.
Variable repr : value → string.
Variable net : world → request → option response.
Variable to_excel : list row → bool.

(** A run whose input file is read: the table is processed and, when the
    writer accepts it, written. *)
Lemma run_loaded (t : list row) m :
  ∃ sfin out,
    process_data isna_list repr net
      {| calls := calls (self m); data := Some t |} = (sfin, Ok true)
    ∧ data sfin = Some out
    ∧ List.length out = List.length t
    ∧ (∀ i col, col ∉ derived_columns → cell out i col = cell t i col)
    ∧ run isna_list repr net (Some t) to_excel m
      = ({| self := sfin;
            file := if to_excel out then Some out else file m |},
         Ok (to_excel out)).
Proof.
  destruct (process_data_frame isna_list repr net
              {| calls := calls (self m); data := Some t |} t eq_refl)
    as (sfin & out & Hrun & Hout & Hlen & Hcol).
  exists sfin, out. do 4 (split; [done|]).
  unfold run. run_ok I. change (negb true) with false. cbv iota.
  assert (Hp : on_self (process_data isna_list repr net)
                 {| self := {| calls := calls (self m); data := Some t |};
                    file := file m |}
               = ({| self := sfin; file := file m |}, Ok true)).
  { unfold on_self. simpl. by rewrite Hrun. }
  run_ok Hp. change (negb true) with false. cbv iota.
  unfold save_output_file. simpl. rewrite Hout.
  by destruct (to_excel out).
Qed.



(** X20. When [main] gives exit status 0, the output file has as many rows
    as the input file, and outside the four derived columns every cell of
    it is the cell of the input file. *)
Theorem main_pass_through (t : list row) w f m :
  main isna_list repr net (Some t) to_excel w f = (m, Ok 0) →
  ∃ out,
    file m = Some out
    ∧ List.length out = List.length t
    ∧ ∀ i col, col ∉ derived_columns → cell out i col = cell t i col.
Proof.
  destruct (run_loaded t {| self := {| calls := w; data := None |};
                            file := f |})
    as (sfin & out & _ & _ & Hlen & Hcol & Hrun).
  unfold main. run_ok Hrun. unfold ret.
  destruct (to_excel out); [|done].
  intros [= <-]. by exists out.
Qed.

End WholeRun.

(** *** Witnesses *)

Lemma format_date_non_string_witness :
  format_date S.isna_list (VInt 20240115) = Ok (VInt 20240115).
Proof.
  apply (format_date_non_string S.isna_list (VInt 20240115) false);
    [done|reflexivity].
Defined.

Lemma normalize_cnpj_no_punct_witness :
  forallb (λ c, negb (cnpj_punct c)) (list_ascii_of_string "12345") = true
  ∧ sublist (list_ascii_of_string "12345")
            (list_ascii_of_string (py_str S.repr (VInt (-12345)))).
Proof.
  apply (normalize_cnpj_no_punct S.isna_list S.repr (VInt (-12345)) "12345").
  reflexivity.
Defined.

Lemma query_fundsnet_one_request_witness :
  ∃ t,
    query_fundsnet S.isna_list S.net S.cnpj []
    = (([] ++ if false then [] else [fundsnet_request S.cnpj])%list, Ok t)
    ∧ (List.length t = 3%nat ∨ t = [VNone; VNone]).
Proof.
  apply (query_fundsnet_one_request S.isna_list S.net S.cnpj [] false).
  reflexivity.
Defined.

Lemma query_fundsnet_success_witness :
  query_fundsnet S.isna_list S.net S.cnpj []
  = (S.first_call,
     Ok [VStr "Fund X"; VStr "2024-01-15T00:00:00"; VStr "D1"]).
Proof.
  apply (query_fundsnet_success S.isna_list S.net S.cnpj []
           {| status_code := 200;
              json := Some (VDict [("data", VList [S.fund_info])]) |}
           [("data", VList [S.fund_info])]
           [("descricaoFundo", VStr "Fund X");
            ("dataEntrega", VStr "2024-01-15T00:00:00");
            ("id", VStr "D1")] []);
    reflexivity.
Defined.

Lemma query_fundsnet_skips_absent_witness :
  query_fundsnet S.isna_list S.net (VStr "") S.first_call
  = (S.first_call, Ok no_result).
Proof.
  apply (query_fundsnet_skips_absent S.isna_list S.net (VStr "")
           S.first_call).
  left. reflexivity.
Defined.

Lemma query_mziq_one_request_witness :
  ∃ fid,
    query_mziq S.isna_list S.net (VStr "Fund X") S.first_call
    = ((S.first_call
        ++ if false then [] else [mziq_request (VStr "Fund X")])%list, Ok fid)
    ∧ (false = true → fid = VNone).
Proof.
  apply (query_mziq_one_request S.isna_list S.net (VStr "Fund X")
           S.first_call false).
  reflexivity.
Defined.

Lemma query_mziq_failure_none_witness :
  query_mziq S.isna_list S.offline (VStr "Fund X") []
  = ([mziq_request (VStr "Fund X")], Ok VNone).
Proof.
  apply (query_mziq_failure_none S.isna_list S.offline (VStr "Fund X") []);
    [reflexivity|left; reflexivity].
Defined.

Lemma query_mziq_success_witness :
  query_mziq S.isna_list S.net (VStr "Fund X") S.first_call
  = (S.both_calls, Ok (VStr "12345678000199")).
Proof.
  apply (query_mziq_success S.isna_list S.net (VStr "Fund X") S.first_call
           {| status_code := 200;
              json := Some (VDict [("id", VStr "12345678000199")]) |}
           [("id", VStr "12345678000199")]);
    reflexivity.
Defined.

Lemma request_bound_witness :
  ∃ extra,
    calls (process_data S.isna_list S.repr S.flaky S.start_two).1
    = (calls S.start_two ++ extra)%list
    ∧ (List.length extra ≤ 2 * List.length S.two_rows)%nat.
Proof.
  apply (request_bound S.isna_list S.repr S.flaky S.start_two S.two_rows).
  reflexivity.
Defined.

Lemma no_cnpj_no_requests_witness :
  process_data S.isna_list S.repr S.net
    {| calls := []; data := Some E.nameless |}
  = ({| calls := []; data := Some (with_defaults <$> E.nameless) |}, Ok true).
Proof.
  apply (no_cnpj_no_requests S.isna_list S.repr S.net
           {| calls := []; data := Some E.nameless |} E.nameless);
    [reflexivity|].
  repeat constructor.
Defined.

Lemma row_trace_witness :
  ∃ rest,
    calls (state_at S.isna_list S.repr S.net S.start 1)
    = (calls (state_at S.isna_list S.repr S.net S.start 0)
       ++ fundsnet_request (row_get S.fund_row "CNPJ") :: rest)%list
    ∧ (rest = []
       ∨ ∃ w1 name date ext,
           query_fundsnet S.isna_list S.net (row_get S.fund_row "CNPJ")
                          (calls (state_at S.isna_list S.repr S.net S.start 0))
           = (w1, Ok [name; date; ext])
           ∧ truthy name = true
           ∧ rest = [mziq_request name]).
Proof.
  apply (row_trace S.isna_list S.repr S.net S.start S.input 0 S.fund_row);
    reflexivity.
Defined.

Lemma derived_cells_shape_witness :
  ∃ sfin out b date ext fid,
    process_data S.isna_list S.repr S.undated S.start = (sfin, Ok true)
    ∧ data sfin = Some out
    ∧ cell out 0 "validado" = Some (VBool b)
    ∧ cell out 0 "dataUltimoArquivamento" = Some date
    ∧ cell out 0 "externalId" = Some ext
    ∧ (truthy ext = true ∨ ext = VStr "")
    ∧ cell out 0 "idRedis" = Some fid
    ∧ (truthy fid = true ∨ fid = VStr "").
Proof.
  apply (derived_cells_shape S.isna_list S.repr S.undated S.start S.input 0
           S.fund_row);
    reflexivity.
Defined.

Lemma validado_true_idRedis_witness :
  ∃ n,
    cell E.validated_rows 0 "idRedis" = Some (VStr n)
    ∧ n ≠ ""
    ∧ normalize_cnpj S.isna_list S.repr (row_get S.fund_row "CNPJ") = Ok n.
Proof.
  apply (validado_true_idRedis S.isna_list S.repr S.net S.start S.input 0
           S.fund_row E.validated E.validated_rows);
    by vm_compute.
Defined.

Lemma main_pass_through_witness :
  ∃ out,
    file E.after_main = Some out
    ∧ List.length out = List.length S.input
    ∧ ∀ i col, col ∉ derived_columns → cell out i col = cell S.input i col.
Proof.
  apply (main_pass_through S.isna_list S.repr S.net E.writes S.input [] None
           E.after_main).
  by vm_compute.
Defined.
